(** * Ready: the system factory (src/readybase/SystemFactory.cpp)

    A shallow embedding of [SystemFactory::CreateFromFile] and of its two
    sub-constructors [CreateFromImageDataFile] and
    [CreateFromUnstructuredGridFile].

    The factory is stateful C++: it changes the process locale, writes
    through two reference parameters ([render_settings], [warn_to_update])
    and leaves by [throw] at seven places.  It is embedded in a small
    state-and-exception monad whose runs also record the calls they make, in
    order.  The classes the factory drives (the RD systems, the VTK readers
    and containers, [Properties]) are not defined in this file of the
    program; they appear here as data (what a reader shows of a file) and as
    a record of methods the development is parametric in.

    The second part embeds the start of the application
    (src/gui/app.cpp): [SetAppDirectory] as built for wxGTK, and
    [MyApp::OnInit]. *)

From Stdlib Require Import ZArith List Lia Bool.
From stdpp Require Import gmap strings list fin_maps.
From Stdlib Require Import Ascii.

#[local] Set Warnings "-register-all".
Local Open Scope Z_scope.

(** ** C [int] *)

(** A 32-bit two's-complement [int], kept as a [Z] in range. *)
Definition INT_MIN : Z := - 2 ^ 31.
Definition INT_MAX : Z := 2 ^ 31 - 1.

Definition wrap_int (z : Z) : Z := (z + 2 ^ 31) mod 2 ^ 32 - 2 ^ 31.

Definition int_mul (a b : Z) : Z := wrap_int (a * b).

(** ** VTK containers, as far as the factory looks into them *)

(** Values of [vtkType.h]. *)
Definition VTK_POLY_DATA : Z := 0.
Definition VTK_UNSTRUCTURED_GRID : Z := 4.
Definition VTK_IMAGE_DATA : Z := 6.
Definition VTK_FLOAT : Z := 10.

Record vtkDataArray := {
  GetDataType : Z;
  GetNumberOfComponents : Z
}.

(** Point data and cell data are both attribute collections: an indexed
    list of arrays.  [GetArray] gives the null pointer out of range. *)
Definition vtkFieldData := list vtkDataArray.

Definition GetArray (d : vtkFieldData) (i : nat) : option vtkDataArray := d !! i.

Definition GetNumberOfArrays (d : vtkFieldData) : Z := Z.of_nat (length d).

Record vtkImageData := {
  GetPointData : option vtkFieldData;
  GetDimensions : Z * Z * Z;
  GetNumberOfScalarComponents : Z
}.

Record vtkUnstructuredGrid := {
  GetCellData : option vtkFieldData;
  GetNumberOfCells : Z
}.

(** An XML element: a name, attributes and nested elements. *)
Inductive vtkXMLDataElement :=
| XMLElement (name : string) (attributes : list (string * string))
             (nested : list vtkXMLDataElement).

Definition GetElementName (e : vtkXMLDataElement) : string :=
  match e with XMLElement n _ _ => n end.

Definition GetAttributes (e : vtkXMLDataElement) : list (string * string) :=
  match e with XMLElement _ a _ => a end.

Definition GetNestedElements (e : vtkXMLDataElement) : list vtkXMLDataElement :=
  match e with XMLElement _ _ c => c end.

(** The first directly nested element with the given name, if any. *)
Definition FindNestedElementWithName (e : vtkXMLDataElement) (n : string)
  : option vtkXMLDataElement :=
  List.find (fun c => String.eqb (GetElementName c) n) (GetNestedElements e).

(** ** A file, as the readers present it

    [ReadOutputType] is what the generic reader answers for the file;
    the other fields are what an [RD_XMLImageReader] or an
    [RD_XMLUnstructuredGridReader] shows after [Update()].  [GetName] is
    the value the factory receives from [reader->GetName()]. *)
Record File := {
  ReadOutputType : Z;
  ImageOutput : option vtkImageData;
  UnstructuredGridOutput : option vtkUnstructuredGrid;
  GetType : string;
  GetName : string;
  GetRDElement : vtkXMLDataElement;
  ShouldGenerateInitialPatternWhenLoading : bool
}.

(** ** Render settings *)

(** A setting is kept in the textual form the XML gives it: the attributes
    of its element. *)
Definition setting := list (string * string).

Abbreviation Properties := (gmap string setting).

(** Modelled from the spec: [Properties::OverwriteFromXML], whose class is
    not part of the sources.  "Overlay is partial: only names present in
    the overlay source are replaced; unmentioned names retain prior
    values."  Every element nested in the overlay names one setting and
    carries its value; later elements win over earlier ones. *)
Definition OverwriteFromXML (node : vtkXMLDataElement) (p : Properties) : Properties :=
  fold_left (fun acc e => <[GetElementName e := GetAttributes e]> acc)
            (GetNestedElements node) p.

(** The names an overlay element mentions. *)
Definition mentioned (node : vtkXMLDataElement) : list string :=
  map GetElementName (GetNestedElements node).

(** ** RD systems *)

(** The six concrete classes, with the arguments of their constructors. *)
Inductive RDClass :=
| GrayScottImageRD
| FormulaOpenCLImageRD (opencl_platform opencl_device data_type : Z)
| FullKernelOpenCLImageRD (opencl_platform opencl_device data_type : Z)
| GrayScottMeshRD
| FormulaOpenCLMeshRD (opencl_platform opencl_device data_type : Z)
| FullKernelOpenCLMeshRD (opencl_platform opencl_device data_type : Z).

(** The compute binding an object was constructed with: platform and
    device. *)
Definition compute_binding (c : RDClass) : option (Z * Z) :=
  match c with
  | GrayScottImageRD | GrayScottMeshRD => None
  | FormulaOpenCLImageRD p d _ | FullKernelOpenCLImageRD p d _
  | FormulaOpenCLMeshRD p d _ | FullKernelOpenCLMeshRD p d _ => Some (p, d)
  end.

Definition is_image_class (c : RDClass) : bool :=
  match c with
  | GrayScottImageRD | FormulaOpenCLImageRD _ _ _ | FullKernelOpenCLImageRD _ _ _ => true
  | _ => false
  end.

Definition is_mesh_class (c : RDClass) : bool := negb (is_image_class c).

(** The data members of a system.  [internals] stands for everything the
    factory never touches itself (fields, parameters, rule text). *)
Record Members (P : Type) := {
  filename : string;
  modified : bool;
  dimensions : Z * Z * Z;
  number_of_chemicals : Z;
  internals : P
}.
Arguments filename {P} _.
Arguments modified {P} _.
Arguments dimensions {P} _.
Arguments number_of_chemicals {P} _.
Arguments internals {P} _.

(** An object: its dynamic class, which no method can change, and its
    members. *)
Record AbstractRD (P : Type) := {
  class : RDClass;
  members : Members P
}.
Arguments class {P} _.
Arguments members {P} _.

(** Modelled from the spec: the four setters of [AbstractRD] the factory
    calls (section 6 lists them; the class is not part of the sources).
    Each stores its argument in the attribute of the data model. *)
Definition SetFilename {P} (s : string) (m : Members P) : Members P :=
  {| filename := s; modified := modified m; dimensions := dimensions m;
     number_of_chemicals := number_of_chemicals m; internals := internals m |}.

Definition SetModified {P} (b : bool) (m : Members P) : Members P :=
  {| filename := filename m; modified := b; dimensions := dimensions m;
     number_of_chemicals := number_of_chemicals m; internals := internals m |}.

Definition SetDimensions {P} (x y z : Z) (m : Members P) : Members P :=
  {| filename := filename m; modified := modified m; dimensions := (x, y, z);
     number_of_chemicals := number_of_chemicals m; internals := internals m |}.

Definition SetNumberOfChemicals {P} (n : Z) (m : Members P) : Members P :=
  {| filename := filename m; modified := modified m; dimensions := dimensions m;
     number_of_chemicals := n; internals := internals m |}.

(** ** Exceptions and results *)

Inductive Result (E A : Type) :=
| Return (a : A)
| Throw (e : E).
Arguments Return {E A} _.
Arguments Throw {E A} _.

(** What can escape from the factory: a [runtime_error] of one of its own
    [throw] statements, or whatever a method it calls raised. *)
Inductive exn :=
| runtime_error (what : string)
| raised_in (callee : string) (what : string).

(** ** The methods the factory calls on classes defined elsewhere

    Constructors and methods may raise; a method sees the dynamic class of
    its object (virtual dispatch).  [InitializeFromXML] also receives and
    answers the [warn_to_update] flag it has by reference. *)
Record Methods (P : Type) := {
  construct : RDClass -> Result string (Members P);
  InitializeFromXML :
    RDClass -> vtkXMLDataElement -> bool -> Members P -> Result string (Members P * bool);
  CopyFromImage : RDClass -> vtkImageData -> Members P -> Result string (Members P);
  CopyFromMesh : RDClass -> vtkUnstructuredGrid -> Members P -> Result string (Members P);
  GenerateInitialPattern : RDClass -> Members P -> Result string (Members P);
  GetOpenCLInstallationHints : string
}.
Arguments construct {P} _.
Arguments InitializeFromXML {P} _.
Arguments CopyFromImage {P} _.
Arguments CopyFromMesh {P} _.
Arguments GenerateInitialPattern {P} _.
Arguments GetOpenCLInstallationHints {P} _.

(** ** The calls a run makes, in the order it makes them *)

Module Call.
Inductive t :=
| setlocale (locale : string)
| ReadOutputType (path : string)
| CreateFromImageDataFile
| CreateFromUnstructuredGridFile
| ImageReaderUpdate (path : string)
| UnstructuredGridReaderUpdate (path : string)
| make_unique (c : RDClass)
| InitializeFromXML
| OverwriteFromXML
| SetDimensions (x y z : Z)
| SetNumberOfChemicals (n : Z)
| CopyFromImage
| CopyFromMesh
| GenerateInitialPattern
| SetFilename (s : string)
| SetModified (b : bool).
End Call.

(** ** The state the factory works on *)

Record State := {
  LC_NUMERIC : string;
  render_settings : Properties;
  warn_to_update : bool
}.

Definition set_LC_NUMERIC (l : string) (st : State) : State :=
  {| LC_NUMERIC := l; render_settings := render_settings st;
     warn_to_update := warn_to_update st |}.

Definition set_render_settings (p : Properties) (st : State) : State :=
  {| LC_NUMERIC := LC_NUMERIC st; render_settings := p;
     warn_to_update := warn_to_update st |}.

Definition set_warn_to_update (b : bool) (st : State) : State :=
  {| LC_NUMERIC := LC_NUMERIC st; render_settings := render_settings st;
     warn_to_update := b |}.

(** ** The monad: state, exceptions, and the calls made *)

Record Run (A : Type) := {
  result : Result exn A;
  final : State;
  trace : list Call.t
}.
Arguments result {A} _.
Arguments final {A} _.
Arguments trace {A} _.

Definition M (A : Type) : Type := State -> Run A.

Definition ret {A} (a : A) : M A :=
  fun st => {| result := Return a; final := st; trace := [] |}.

(** An exception skips the rest; the state reached so far stays. *)
Definition bind {A B} (m : M A) (k : A -> M B) : M B :=
  fun st =>
    match m st with
    | {| result := Throw e; final := st1; trace := t1 |} =>
        {| result := Throw e; final := st1; trace := t1 |}
    | {| result := Return a; final := st1; trace := t1 |} =>
        match k a st1 with
        | {| result := r; final := st2; trace := t2 |} =>
            {| result := r; final := st2; trace := t1 ++ t2 |}
        end
    end.

Definition throw {A} (e : exn) : M A :=
  fun st => {| result := Throw e; final := st; trace := [] |}.

Definition called (c : Call.t) : M unit :=
  fun st => {| result := Return tt; final := st; trace := [c] |}.

Definition get : M State :=
  fun st => {| result := Return st; final := st; trace := [] |}.

Definition modify (f : State -> State) : M unit :=
  fun st => {| result := Return tt; final := f st; trace := [] |}.

(** The result of a callee, with the callee's name on what it raised. *)
Definition from {A} (callee : string) (r : Result string A) : M A :=
  match r with
  | Return a => ret a
  | Throw what => throw (raised_in callee what)
  end.

Declare Scope factory_scope.
Delimit Scope factory_scope with factory.
Notation "x <- m ;; k" := (bind m (fun x => k))
  (at level 100, m at next level, right associativity) : factory_scope.
Notation "m ;;; k" := (bind m (fun _ => k))
  (at level 100, right associativity) : factory_scope.
Local Open Scope factory_scope.

(** ** [setlocale]

    ISO C 7.11.1.1: with a string for [locale] that can be honoured,
    [setlocale] makes it the category's locale and "returns a pointer to the
    string associated with the specified category for the new locale".  The
    factory passes only ["C"], which every implementation honours, and what
    such a call returned. *)
Definition setlocale (locale : string) : M string :=
  called (Call.setlocale locale) ;;;
  modify (set_LC_NUMERIC locale) ;;;
  st <- get ;;
  ret (LC_NUMERIC st).

(** ** The factory *)

Section Factory.
Context {P : Type} (rd : Methods P).

(** [make_unique<C>(args)]. *)
Definition make_unique (c : RDClass) : M (AbstractRD P) :=
  called (Call.make_unique c) ;;;
  m <- from "make_unique" (construct rd c) ;;
  ret {| class := c; members := m |}.

(** [sys->method(args)] for a method that works on the object only. *)
Definition invoke (callee : string) (c : Call.t)
    (method : RDClass -> Members P -> Result string (Members P))
    (sys : AbstractRD P) : M (AbstractRD P) :=
  called c ;;;
  m <- from callee (method (class sys) (members sys)) ;;
  ret {| class := class sys; members := m |}.

(** A setter cannot fail. *)
Definition setter (set : Members P -> Members P)
  : RDClass -> Members P -> Result string (Members P) :=
  fun _ m => Return (set m).

(** [sys->InitializeFromXML(element, warn_to_update)]. *)
Definition initialize_from_xml (element : vtkXMLDataElement)
    (sys : AbstractRD P) : M (AbstractRD P) :=
  called Call.InitializeFromXML ;;;
  st <- get ;;
  mw <- from "InitializeFromXML"
          (InitializeFromXML rd (class sys) element (warn_to_update st) (members sys)) ;;
  modify (set_warn_to_update (snd mw)) ;;;
  ret {| class := class sys; members := fst mw |}.

(** [if(xml_render_settings) render_settings.OverwriteFromXML(xml_render_settings);] *)
Definition overlay_render_settings (element : vtkXMLDataElement) : M unit :=
  match FindNestedElementWithName element "render_settings" with
  | Some xml_render_settings =>
      called Call.OverwriteFromXML ;;;
      modify (fun st =>
        set_render_settings (OverwriteFromXML xml_render_settings (render_settings st)) st)
  | None => ret tt
  end.

(** [if(reader->ShouldGenerateInitialPatternWhenLoading()) sys->GenerateInitialPattern();] *)
Definition generate_if_requested (file : File) (sys : AbstractRD P) : M (AbstractRD P) :=
  if ShouldGenerateInitialPatternWhenLoading file
  then invoke "GenerateInitialPattern" Call.GenerateInitialPattern
              (GenerateInitialPattern rd) sys
  else ret sys.

Definition CreateFromImageDataFile (filename : string) (file : File)
    (is_opencl_available : bool) (opencl_platform opencl_device : Z)
  : M (AbstractRD P) :=
  called Call.CreateFromImageDataFile ;;;
  called (Call.ImageReaderUpdate filename) ;;;
  match ImageOutput file with
  | None => throw (runtime_error "Failed to read image.")
  | Some image =>
  match GetPointData image with
  | None => throw (runtime_error "Image has no point data.")
  | Some point_data =>
  match GetArray point_data 0 with
  | None => throw (runtime_error "No arrays in image point data.")
  | Some array0 =>
    let data_type := GetDataType array0 in
    let type := GetType file in
    let name := GetName file in
    image_system <-
      (if String.eqb type "inbuilt" then
         if String.eqb name "Gray-Scott" then make_unique GrayScottImageRD
         else throw (runtime_error ("Unsupported inbuilt implementation: " +:+ name))
       else if String.eqb type "formula" then
         if negb is_opencl_available
         then throw (runtime_error (GetOpenCLInstallationHints rd))
         else make_unique (FormulaOpenCLImageRD opencl_platform opencl_device data_type)
       else if String.eqb type "kernel" then
         if negb is_opencl_available
         then throw (runtime_error (GetOpenCLInstallationHints rd))
         else make_unique (FullKernelOpenCLImageRD opencl_platform opencl_device data_type)
       else throw (runtime_error ("Unsupported rule type: " +:+ type))) ;;
    image_system <- initialize_from_xml (GetRDElement file) image_system ;;
    overlay_render_settings (GetRDElement file) ;;;
    let dim := GetDimensions image in
    let nc := int_mul (GetNumberOfScalarComponents image) (GetNumberOfArrays point_data) in
    image_system <-
      invoke "SetDimensions" (Call.SetDimensions dim.1.1 dim.1.2 dim.2)
             (setter (SetDimensions dim.1.1 dim.1.2 dim.2)) image_system ;;
    image_system <-
      invoke "SetNumberOfChemicals" (Call.SetNumberOfChemicals nc)
             (setter (SetNumberOfChemicals nc)) image_system ;;
    image_system <-
      invoke "CopyFromImage" Call.CopyFromImage
             (fun c => CopyFromImage rd c image) image_system ;;
    image_system <- generate_if_requested file image_system ;;
    ret image_system
  end end end.

Definition CreateFromUnstructuredGridFile (filename : string) (file : File)
    (is_opencl_available : bool) (opencl_platform opencl_device : Z)
  : M (AbstractRD P) :=
  called Call.CreateFromUnstructuredGridFile ;;;
  called (Call.UnstructuredGridReaderUpdate filename) ;;;
  match UnstructuredGridOutput file with
  | None => throw (runtime_error "Failed to read unstructured grid.")
  | Some ugrid =>
  match GetCellData ugrid with
  | None => throw (runtime_error "Unstructured grid has no cell data.")
  | Some cell_data =>
  match GetArray cell_data 0 with
  | None => throw (runtime_error "No arrays in unstructured grid cell data.")
  | Some array0 =>
    let data_type := GetDataType array0 in
    let type := GetType file in
    let name := GetName file in
    mesh_system <-
      (if String.eqb type "inbuilt" then
         if String.eqb name "Gray-Scott" then make_unique GrayScottMeshRD
         else throw (runtime_error ("Unsupported inbuilt implementation: " +:+ name))
       else if String.eqb type "formula" then
         if negb is_opencl_available
         then throw (runtime_error (GetOpenCLInstallationHints rd))
         else make_unique (FormulaOpenCLMeshRD opencl_platform opencl_device data_type)
       else if String.eqb type "kernel" then
         if negb is_opencl_available
         then throw (runtime_error (GetOpenCLInstallationHints rd))
         else make_unique (FullKernelOpenCLMeshRD opencl_platform opencl_device data_type)
       else throw (runtime_error ("Unsupported rule type: " +:+ type))) ;;
    mesh_system <- initialize_from_xml (GetRDElement file) mesh_system ;;
    mesh_system <-
      invoke "CopyFromMesh" Call.CopyFromMesh
             (fun c => CopyFromMesh rd c ugrid) mesh_system ;;
    overlay_render_settings (GetRDElement file) ;;;
    mesh_system <- generate_if_requested file mesh_system ;;
    ret mesh_system
  end end end.

Definition CreateFromFile (filename : string) (file : File)
    (is_opencl_available : bool) (opencl_platform opencl_device : Z)
  : M (AbstractRD P) :=
  old_locale <- setlocale "C" ;;
  called (Call.ReadOutputType filename) ;;;
  let data_structure_type := ReadOutputType file in
  system <-
    (if data_structure_type =? VTK_IMAGE_DATA then
       CreateFromImageDataFile filename file is_opencl_available
                               opencl_platform opencl_device
     else if data_structure_type =? VTK_UNSTRUCTURED_GRID then
       CreateFromUnstructuredGridFile filename file is_opencl_available
                                      opencl_platform opencl_device
     else throw (runtime_error "Unsupported data type or file read error")) ;;
  setlocale old_locale ;;;
  system <- invoke "SetFilename" (Call.SetFilename filename)
                   (setter (SetFilename filename)) system ;;
  system <- invoke "SetModified" (Call.SetModified false)
                   (setter (SetModified false)) system ;;
  ret system.

End Factory.

(** ** Concrete inputs *)

(** Methods that keep a journal of what was done to the object and never
    raise. *)
Definition journal (entry : string) (m : Members (list string)) : Members (list string) :=
  {| filename := filename m; modified := modified m; dimensions := dimensions m;
     number_of_chemicals := number_of_chemicals m;
     internals := internals m ++ [entry] |}.

Definition quiet : Methods (list string) :=
  {| construct := fun _ =>
       Return {| filename := "untitled"; modified := true; dimensions := (1, 1, 1);
                 number_of_chemicals := 0; internals := [] |};
     InitializeFromXML := fun _ _ w m => Return (journal "InitializeFromXML" m, w);
     CopyFromImage := fun _ _ m => Return (journal "CopyFromImage" m);
     CopyFromMesh := fun _ _ m => Return (journal "CopyFromMesh" m);
     GenerateInitialPattern := fun _ m => Return (journal "GenerateInitialPattern" m);
     GetOpenCLInstallationHints := "OpenCL not found: install the drivers of your graphics card." |}.

(** The same, but [CopyFromImage] rejects every image. *)
Definition picky : Methods (list string) :=
  {| construct := construct quiet;
     InitializeFromXML := InitializeFromXML quiet;
     CopyFromImage := fun _ _ _ => Throw "CopyFromImage: dimensions do not match";
     CopyFromMesh := CopyFromMesh quiet;
     GenerateInitialPattern := GenerateInitialPattern quiet;
     GetOpenCLInstallationHints := GetOpenCLInstallationHints quiet |}.

Definition rd_element (settings : list vtkXMLDataElement) : vtkXMLDataElement :=
  XMLElement "RD" [("format_version", "6")]
    (XMLElement "rule" [("type", "inbuilt"); ("name", "Gray-Scott")] [] :: settings).

Definition some_render_settings : vtkXMLDataElement :=
  XMLElement "render_settings" []
    [XMLElement "timesteps_per_render" [("value", "100")] [];
     XMLElement "show_color_scale" [("value", "false")] []].

(** A 32 x 32 x 1 image with one point-data array of three components. *)
Definition image_32_32_1 : vtkImageData :=
  {| GetPointData := Some [{| GetDataType := VTK_FLOAT; GetNumberOfComponents := 3 |}];
     GetDimensions := (32, 32, 1);
     GetNumberOfScalarComponents := 3 |}.

Definition image_without_arrays : vtkImageData :=
  {| GetPointData := Some []; GetDimensions := (32, 32, 1);
     GetNumberOfScalarComponents := 1 |}.

Definition image_without_point_data : vtkImageData :=
  {| GetPointData := None; GetDimensions := (32, 32, 1);
     GetNumberOfScalarComponents := 1 |}.

Definition mesh_of_20_cells : vtkUnstructuredGrid :=
  {| GetCellData := Some [{| GetDataType := VTK_FLOAT; GetNumberOfComponents := 1 |};
                          {| GetDataType := VTK_FLOAT; GetNumberOfComponents := 1 |}];
     GetNumberOfCells := 20 |}.

Definition mesh_without_arrays : vtkUnstructuredGrid :=
  {| GetCellData := Some []; GetNumberOfCells := 20 |}.

Definition mesh_without_cell_data : vtkUnstructuredGrid :=
  {| GetCellData := None; GetNumberOfCells := 20 |}.

Definition image_file (image : vtkImageData) (type name : string)
    (settings : list vtkXMLDataElement) (generate : bool) : File :=
  {| ReadOutputType := VTK_IMAGE_DATA;
     ImageOutput := Some image;
     UnstructuredGridOutput := None;
     GetType := type; GetName := name;
     GetRDElement := rd_element settings;
     ShouldGenerateInitialPatternWhenLoading := generate |}.

Definition mesh_file (ugrid : vtkUnstructuredGrid) (type name : string)
    (settings : list vtkXMLDataElement) (generate : bool) : File :=
  {| ReadOutputType := VTK_UNSTRUCTURED_GRID;
     ImageOutput := None;
     UnstructuredGridOutput := Some ugrid;
     GetType := type; GetName := name;
     GetRDElement := rd_element settings;
     ShouldGenerateInitialPatternWhenLoading := generate |}.

(** A file of a kind the factory does not load. *)
Definition poly_data_file : File :=
  {| ReadOutputType := VTK_POLY_DATA;
     ImageOutput := None;
     UnstructuredGridOutput := None;
     GetType := "inbuilt"; GetName := "Gray-Scott";
     GetRDElement := rd_element [];
     ShouldGenerateInitialPatternWhenLoading := false |}.

Definition defaults : Properties :=
  {[ "timesteps_per_render" := [("value", "1")];
     "show_cell_edges" := [("value", "true")] ]}.

Definition german : State :=
  {| LC_NUMERIC := "de_DE.UTF-8"; render_settings := defaults; warn_to_update := false |}.

(** ** Vocabulary of the statements *)

(** The data section of the container the factory loads from: the point
    data of the image or the cell data of the unstructured grid.  [None]:
    no container was read (another output type, or the reader gave no
    output); [Some None]: a container without the section. *)
Definition container_data (file : File) : option (option vtkFieldData) :=
  if ReadOutputType file =? VTK_IMAGE_DATA then
    GetPointData <$> ImageOutput file
  else if ReadOutputType file =? VTK_UNSTRUCTURED_GRID then
    GetCellData <$> UnstructuredGridOutput file
  else None.

(** The container was read and its data section has at least one array:
    the file passes the three checks at the head of a sub-constructor. *)
Definition data_present (file : File) : Prop :=
  exists array0 others, container_data file = Some (Some (array0 :: others)).

(** No constructor and no method ever raises. *)
Definition reliable {P} (rd : Methods P) : Prop :=
  (forall c, exists m, construct rd c = Return m) /\
  (forall c e w m, exists r, InitializeFromXML rd c e w m = Return r) /\
  (forall c i m, exists m', CopyFromImage rd c i m = Return m') /\
  (forall c u m, exists m', CopyFromMesh rd c u m = Return m') /\
  (forall c m, exists m', GenerateInitialPattern rd c m = Return m').

(** A method leaves the sizing of its object alone. *)
Definition keeps_sizing {P} (method : Members P -> Result string (Members P)) : Prop :=
  forall m m', method m = Return m' ->
    dimensions m' = dimensions m /\ number_of_chemicals m' = number_of_chemicals m.

Definition sizing_kept {P} (rd : Methods P) : Prop :=
  (forall c image, keeps_sizing (CopyFromImage rd c image)) /\
  (forall c, keeps_sizing (GenerateInitialPattern rd c)).

(** The two ways data can be missing, as the caller sees them. *)
Definition no_data_section_error (e : exn) : Prop :=
  e = runtime_error "Image has no point data." \/
  e = runtime_error "Unstructured grid has no cell data.".

Definition no_arrays_error (e : exn) : Prop :=
  e = runtime_error "No arrays in image point data." \/
  e = runtime_error "No arrays in unstructured grid cell data.".

(** The failures the factory raises itself, by kind. *)
Inductive factory_failure {P} (rd : Methods P) : exn -> Prop :=
| unsupported_format :
    factory_failure rd (runtime_error "Unsupported data type or file read error")
| unreadable_image :
    factory_failure rd (runtime_error "Failed to read image.")
| unreadable_grid :
    factory_failure rd (runtime_error "Failed to read unstructured grid.")
| missing_data_section e :
    no_data_section_error e -> factory_failure rd e
| missing_arrays e :
    no_arrays_error e -> factory_failure rd e
| unsupported_rule_type type :
    factory_failure rd (runtime_error ("Unsupported rule type: " +:+ type))
| unknown_inbuilt_name name :
    factory_failure rd (runtime_error ("Unsupported inbuilt implementation: " +:+ name))
| compute_unavailable :
    factory_failure rd (runtime_error (GetOpenCLInstallationHints rd)).

(** The calls that size a system. *)
Definition is_sizing_call (c : Call.t) : bool :=
  match c with
  | Call.SetDimensions _ _ _ | Call.SetNumberOfChemicals _
  | Call.CopyFromImage | Call.CopyFromMesh => true
  | _ => false
  end.

(** The sizing a sub-constructor does is behind: for an image, dimensions,
    channel count and copy-in; for a mesh, the copy-in, which is all the
    sizing that sub-constructor does. *)
Definition sizing_done (file : File) (before : list Call.t) : Prop :=
  if ReadOutputType file =? VTK_IMAGE_DATA then
    (exists x y z, Call.SetDimensions x y z ∈ before) /\
    (exists n, Call.SetNumberOfChemicals n ∈ before) /\
    (Call.CopyFromImage ∈ before)
  else
    Call.CopyFromMesh ∈ before.

(** ** Further vocabulary *)

Definition is_setlocale (c : Call.t) : bool :=
  match c with Call.setlocale _ => true | _ => false end.

Definition is_success {E A} (r : Result E A) : bool :=
  match r with Return _ => true | Throw _ => false end.

(** The class the dispatch on topology and rule type selects when OpenCL is
    there, for a "formula" or "kernel" rule. *)
Definition opencl_class (file : File) (opencl_platform opencl_device data_type : Z)
  : RDClass :=
  if ReadOutputType file =? VTK_IMAGE_DATA then
    if String.eqb (GetType file) "formula"
    then FormulaOpenCLImageRD opencl_platform opencl_device data_type
    else FullKernelOpenCLImageRD opencl_platform opencl_device data_type
  else
    if String.eqb (GetType file) "formula"
    then FormulaOpenCLMeshRD opencl_platform opencl_device data_type
    else FullKernelOpenCLMeshRD opencl_platform opencl_device data_type.

(** The calls of a load that goes through, between the construction of the
    object and the return of the sub-constructor. *)
Definition hydration_calls (file : File) : list Call.t :=
  let overlay :=
    match FindNestedElementWithName (GetRDElement file) "render_settings" with
    | Some _ => [Call.OverwriteFromXML]
    | None => []
    end in
  let generation :=
    if ShouldGenerateInitialPatternWhenLoading file
    then [Call.GenerateInitialPattern] else [] in
  if ReadOutputType file =? VTK_IMAGE_DATA then
    match ImageOutput file with
    | Some image =>
        let dim := GetDimensions image in
        let arrays := default [] (GetPointData image) in
        [Call.InitializeFromXML] ++ overlay ++
        [Call.SetDimensions dim.1.1 dim.1.2 dim.2;
         Call.SetNumberOfChemicals
           (int_mul (GetNumberOfScalarComponents image) (GetNumberOfArrays arrays));
         Call.CopyFromImage] ++ generation
    | None => []
    end
  else
    [Call.InitializeFromXML; Call.CopyFromMesh] ++ overlay ++ generation.

Definition reader_calls (path : string) (file : File) : list Call.t :=
  if ReadOutputType file =? VTK_IMAGE_DATA
  then [Call.CreateFromImageDataFile; Call.ImageReaderUpdate path]
  else [Call.CreateFromUnstructuredGridFile; Call.UnstructuredGridReaderUpdate path].

(** ** Starting the application (src/gui/app.cpp), as built for wxGTK

    [SetAppDirectory] and [MyApp::OnInit].  Strings are the characters of
    the C string before its terminator.  What the program asks of wxWidgets
    and of the system is recorded call by call; the answers it branches on
    (whether a directory can be entered, what [wxApp::OnInit] and
    [wxFileName] say, the value of [maximize] once the frame has read the
    preferences) are parameters. *)

Inductive gui_call :=
| wxSetWorkingDirectory_call (dir : string)
| SetAppName (name : string)
| srand
| wxInitAllImageHandlers
| new_MyFrame (title : string)
| currframe_Maximize (b : bool)
| currframe_Show (b : bool)
| SetTopWindow
| currframe_OpenFile (path : string).

(** [sizeof(appdir)] for [char appdir[2048]]. *)
Definition sizeof_appdir : nat := 2048.

(** [s[i] == c], for [i] below the length of [s]. *)
Definition char_at_is (c : Ascii.ascii) (s : string) (i : nat) : bool :=
  match String.get i s with
  | Some x => Ascii.eqb x c
  | None => false
  end.

(** [unsigned int pos = strlen(argv0);] *)
Definition strlen_unsigned (s : string) : nat :=
  Z.to_nat (Z.of_nat (String.length s) mod 2 ^ 32).

(** [while (pos > 0) { pos--; if (argv0[pos] == '/') break; }], the value
    of [pos] after the loop. *)
Fixpoint last_slash (argv0 : string) (pos : nat) : nat :=
  match pos with
  | O => O
  | S pos' => if char_at_is "/"%char argv0 pos' then pos' else last_slash argv0 pos'
  end.

(** [wxString::Last() != wxFILE_SEP_PATH] followed by [+= wxFILE_SEP_PATH].
    [Last()] of an empty string is outside what the code may ask (wxWidgets
    asserts); [wxGetCwd()] is empty only when it failed. *)
Definition Last (s : string) : option Ascii.ascii :=
  String.get (String.length s - 1) s.

Definition with_trailing_separator (dir : string) : string :=
  match Last dir with
  | Some c => if Ascii.eqb c "/"%char then dir else dir +:+ "/"
  | None => dir +:+ "/"
  end.

(** The process, as far as the start of the application goes: the working
    directory and the global [readydir]. *)
Record Process := {
  cwd : string;
  readydir : string
}.

Section App.
Context (READYDIR : string)
        (chdir : string -> string -> option string)
        (wxApp_OnInit : bool)
        (maximize : bool)
        (IsAbsolute : string -> bool)
        (GetFullPath : string -> string).

(** [wxSetWorkingDirectory(d)]: enters [d] if the system lets it, and says
    whether it did. *)
Definition wxSetWorkingDirectory (d : string) (here : string) : bool * string :=
  match chdir here d with
  | Some there => (true, there)
  | None => (false, here)
  end.

(** The [__WXGTK__] branch of [SetAppDirectory]: the calls made and the
    working directory afterwards. *)
Definition SetAppDirectory (argv0 : string) (here : string)
  : list gui_call * string :=
  let gd := READYDIR in
  let first :=
    if char_at_is "/"%char gd 0
    then Some (wxSetWorkingDirectory gd here)
    else None in
  match first with
  | Some (true, there) => ([wxSetWorkingDirectory_call gd], there)
  | _ =>
      let tried :=
        match first with
        | Some _ => [wxSetWorkingDirectory_call gd]
        | None => []
        end in
      let pos := last_slash argv0 (strlen_unsigned argv0) in
      if (0 <? pos)%nat && negb ((pos =? 1)%nat && char_at_is "."%char argv0 0) then
        if (pos <? sizeof_appdir)%nat then
          let appdir := String.substring 0 pos argv0 in
          (tried ++ [wxSetWorkingDirectory_call appdir],
           snd (wxSetWorkingDirectory appdir here))
        else (tried, here)
      else (tried, here)
  end.

(** [for (int n = 1; n < argc; n++)]: one [currframe_OpenFile] per argument. *)
Definition open_arguments (initdir : string) (arguments : list string)
  : list gui_call :=
  map (fun argument =>
         let filename :=
           if IsAbsolute argument then argument else initdir +:+ argument in
         currframe_OpenFile (GetFullPath filename))
      arguments.

(** [MyApp::OnInit], given [argv[0]] and [argv[1..argc-1]]: what it
    returns, the calls it makes and the process afterwards. *)
Definition OnInit (argv0 : string) (arguments : list string) (p : Process)
  : bool * list gui_call * Process :=
  if negb wxApp_OnInit then (false, [], p)
  else
    let initdir := with_trailing_separator (cwd p) in
    let moved := SetAppDirectory argv0 (cwd p) in
    let readydir' := with_trailing_separator (snd moved) in
    (true,
     [SetAppName "Ready"; srand] ++ fst moved ++
     [wxInitAllImageHandlers; new_MyFrame "Ready"] ++
     (if maximize then [currframe_Maximize true] else []) ++
     [currframe_Show true; SetTopWindow] ++
     open_arguments initdir arguments,
     {| cwd := snd moved; readydir := readydir' |}).

End App.

(** A system that enters the directories of a table, each entry giving the
    name to ask for and the working directory that results. *)
Definition chdir_table (table : list (string * string)) (here target : string)
  : option string :=
  snd <$> List.find (fun entry => String.eqb (fst entry) target) table.

(** [wxFileName::IsAbsolute] on a Unix path. *)
Definition unix_absolute (path : string) : bool := char_at_is "/"%char path 0.

(** No ['/'] in [s] from index [from] on. *)
Definition slash_free_from (from : nat) (s : string) : Prop :=
  forall i, (from <= i)%nat -> char_at_is "/"%char s i = false.

Definition is_OpenFile (c : gui_call) : bool :=
  match c with currframe_OpenFile _ => true | _ => false end.

(** The calls to enter READYDIR that come to nothing. *)
Definition tried_READYDIR (READYDIR : string) : list gui_call :=
  if char_at_is "/" READYDIR 0 then [wxSetWorkingDirectory_call READYDIR] else [].

Definition READYDIR_unused (READYDIR : string) (chdir : string -> string -> option string)
    (here : string) : Prop :=
  char_at_is "/" READYDIR 0 = true -> chdir here READYDIR = None.


(** The methods of [quiet], but [CopyFromMesh] rejects every grid. *)
Definition fussy : Methods (list string) :=
  {| construct := construct quiet;
     InitializeFromXML := InitializeFromXML quiet;
     CopyFromImage := CopyFromImage quiet;
     CopyFromMesh := fun _ _ _ => Throw "CopyFromMesh: no cells";
     GenerateInitialPattern := GenerateInitialPattern quiet;
     GetOpenCLInstallationHints := GetOpenCLInstallationHints quiet |}.

(** A system with a parent directory and an installation in /opt. *)
Definition some_directories : string -> string -> option string :=
  chdir_table [("..", "/home/user"); ("/opt/ready", "/opt/ready")].

Definition started_in_patterns : Process :=
  {| cwd := "/home/user/Patterns"; readydir := "" |}.

(** ** Files that differ in the name tag

    The readers give the name tag twice: as the value of
    [reader->GetName()] and inside the RD element, which the factory hands
    to [InitializeFromXML].  Two files identical except for the name tag
    show the same containers, the same type tag, the same request for an
    initial pattern and the same [render_settings] block; they may differ in
    [GetName] and in [GetRDElement]. *)
Definition same_but_name_tag (f1 f2 : File) : Prop :=
  ReadOutputType f1 = ReadOutputType f2 /\
  ImageOutput f1 = ImageOutput f2 /\
  UnstructuredGridOutput f1 = UnstructuredGridOutput f2 /\
  GetType f1 = GetType f2 /\
  ShouldGenerateInitialPatternWhenLoading f1 =
    ShouldGenerateInitialPatternWhenLoading f2 /\
  FindNestedElementWithName (GetRDElement f1) "render_settings" =
    FindNestedElementWithName (GetRDElement f2) "render_settings".

Definition is_make_unique (c : Call.t) : bool :=
  match c with Call.make_unique _ => true | _ => false end.

(** Two runs select the same variant: they raise the same errors of the
    factory's own, construct the same objects, and models they both return
    are of one class. *)
Definition same_selection {P} (r1 r2 : Run (AbstractRD P)) : Prop :=
  (forall what, result r1 = Throw (runtime_error what) <->
                result r2 = Throw (runtime_error what)) /\
  List.filter is_make_unique (trace r1) = List.filter is_make_unique (trace r2) /\
  (forall sys1 sys2, result r1 = Return sys1 -> result r2 = Return sys2 ->
                     class sys1 = class sys2).

(** [InitializeFromXML] answers alike on the RD elements of two files. *)
Definition hydrated_alike {P} (rd : Methods P) (f1 f2 : File) : Prop :=
  forall c w m,
    InitializeFromXML rd c (GetRDElement f1) w m =
    InitializeFromXML rd c (GetRDElement f2) w m.

(** What follows the selection in a run: it raises no error of the
    factory's own, constructs nothing and keeps the class of its object. *)
Definition finishing {P} (k : AbstractRD P -> M (AbstractRD P)) : Prop :=
  forall a s,
    (forall what, result (k a s) <> Throw (runtime_error what)) /\
    List.filter is_make_unique (trace (k a s)) = [] /\
    (forall sys, result (k a s) = Return sys -> class sys = class a).

(** An RD element whose rule carries the given type and name. *)
Definition rd_element_with_rule (type name : string) : vtkXMLDataElement :=
  XMLElement "RD" [("format_version", "6")]
    [XMLElement "rule" [("type", type); ("name", name)] []].

(** The image file of a rule, the tags in the reader's answers and in the
    RD element alike. *)
Definition image_file_of_rule (type name : string) : File :=
  {| ReadOutputType := VTK_IMAGE_DATA;
     ImageOutput := Some image_32_32_1;
     UnstructuredGridOutput := None;
     GetType := type; GetName := name;
     GetRDElement := rd_element_with_rule type name;
     ShouldGenerateInitialPatternWhenLoading := false |}.

Definition rule_name_attribute (element : vtkXMLDataElement) : option string :=
  match FindNestedElementWithName element "rule" with
  | Some rule =>
      snd <$> List.find (fun a => String.eqb (fst a) "name") (GetAttributes rule)
  | None => None
  end.

(** The methods of [quiet], but [InitializeFromXML] insists on a rule with
    a name that is not empty. *)
Definition strict : Methods (list string) :=
  {| construct := construct quiet;
     InitializeFromXML := fun c element w m =>
       match rule_name_attribute element with
       | Some name =>
           if String.eqb name "" then Throw "rule without a name"
           else InitializeFromXML quiet c element w m
       | None => Throw "rule without a name"
       end;
     CopyFromImage := CopyFromImage quiet;
     CopyFromMesh := CopyFromMesh quiet;
     GenerateInitialPattern := GenerateInitialPattern quiet;
     GetOpenCLInstallationHints := GetOpenCLInstallationHints quiet |}.

(** A system whose root is the parent of the starting directory. *)
Definition root_above : string -> string -> option string :=
  chdir_table [("..", "/")].

(** ** Proof automation: run the factory by cases *)

Ltac unfold_factory :=
  unfold CreateFromFile, CreateFromImageDataFile, CreateFromUnstructuredGridFile,
    generate_if_requested, overlay_render_settings, initialize_from_xml,
    invoke, setter, make_unique, setlocale, from, bind, ret, throw, called,
    get, modify in *.

(** Case analysis on the innermost scrutinee the goal is stuck on. *)
Ltac innermost x :=
  lazymatch x with
  | context [match ?y with _ => _ end] => innermost y
  | _ => destruct x eqn:?
  end.

Ltac step :=
  match goal with
  | |- context [match ?x with _ => _ end] => innermost x
  end; simpl in *.

Ltac run_factory := unfold_factory; simpl in *; repeat step.

(** ** General facts *)

Lemma wrap_int_in_range (z : Z) : INT_MIN <= z <= INT_MAX -> wrap_int z = z.
Proof.
  unfold INT_MIN, INT_MAX, wrap_int. intros H.
  rewrite Z.mod_small; lia.
Qed.

(** The overlay leaves every name it does not mention as it was. *)
Lemma OverwriteFromXML_unmentioned (node : vtkXMLDataElement) (p : Properties) (n : string) :
  n ∉ mentioned node -> OverwriteFromXML node p !! n = p !! n.
Proof.
  unfold OverwriteFromXML, mentioned.
  generalize (GetNestedElements node) as l. intros l. revert p.
  induction l as [|e l IH]; intros p Hn; simpl in *.
  - reflexivity.
  - apply not_elem_of_cons in Hn as [Hne Hn].
    rewrite IH by exact Hn.
    apply lookup_insert_ne. congruence.
Qed.

(** A mentioned name gets the value of its last mention. *)
Lemma OverwriteFromXML_mentioned (node : vtkXMLDataElement) (p : Properties) (n : string) :
  n ∈ mentioned node -> is_Some (OverwriteFromXML node p !! n).
Proof.
  unfold OverwriteFromXML, mentioned.
  generalize (GetNestedElements node) as l. intros l. revert p.
  induction l as [|e l IH]; intros p Hn; simpl in *.
  - inversion Hn.
  - destruct (decide (n ∈ map GetElementName l)) as [Hin|Hout].
    + apply IH, Hin.
    + apply elem_of_cons in Hn as [->|Hin]; [|contradiction].
      change (is_Some (OverwriteFromXML (XMLElement "" [] l)
                         (<[GetElementName e:=GetAttributes e]> p) !! GetElementName e)).
      rewrite OverwriteFromXML_unmentioned by exact Hout.
      rewrite lookup_insert_eq. eauto.
Qed.

(** Whatever the call does, the numeric locale is ["C"] when it is over:
    on the error paths nothing sets it back, and on the successful path
    [old_locale] holds what [setlocale(LC_NUMERIC,"C")] returned. *)
Lemma CreateFromFile_leaves_C_locale {P} (rd : Methods P) fn file gpu p d st :
  LC_NUMERIC (final (CreateFromFile rd fn file gpu p d st)) = "C".
Proof. run_factory; reflexivity. Qed.

(** The sub-constructors never touch the locale. *)
Lemma CreateFromImageDataFile_locale {P} (rd : Methods P) fn file gpu p d st :
  LC_NUMERIC (final (CreateFromImageDataFile rd fn file gpu p d st)) = LC_NUMERIC st.
Proof. run_factory; reflexivity. Qed.

Lemma CreateFromUnstructuredGridFile_locale {P} (rd : Methods P) fn file gpu p d st :
  LC_NUMERIC (final (CreateFromUnstructuredGridFile rd fn file gpu p d st)) = LC_NUMERIC st.
Proof. run_factory; reflexivity. Qed.

Lemma factory_failure_runtime_error {P} (rd : Methods P) (e : exn) :
  factory_failure rd e -> exists what, e = runtime_error what.
Proof.
  intros H; destruct H as [ | | | e [->| ->] | e [->| ->] | | | ]; eauto.
Qed.

Lemma quiet_reliable : reliable quiet.
Proof. repeat split; intros; eexists; reflexivity. Qed.

Lemma quiet_keeps_sizing : sizing_kept quiet.
Proof.
  split; intros c; intros; intros m m' H; injection H as <-; split; reflexivity.
Qed.

(** Membership in a trace that has been computed. *)
Ltac present :=
  solve [repeat first [apply list_elem_of_here | apply list_elem_of_further]].

Ltac absent :=
  let H := fresh "Hin" in
  intros H;
  repeat (apply elem_of_cons in H as [H|H]; [discriminate H|]);
  apply elem_of_nil in H; exact H.

(** Find the place of an entry in a computed trace split as
    [before ++ entry :: after]. *)
Ltac locate Hsplit before :=
  repeat (destruct before as [|? before]; simpl in Hsplit;
          [ try discriminate Hsplit
          | injection Hsplit as ? Hsplit; subst ]).

(** Under [reliable], the cases in which a method raised are void. *)
Ltac never_raises Hrel :=
  let Hc := fresh in let Hi := fresh in let Him := fresh in
  let Hm := fresh in let Hg := fresh in
  destruct Hrel as (Hc & Hi & Him & Hm & Hg);
  repeat match goal with
  | E : construct _ ?c = Throw _ |- _ => destruct (Hc c); congruence
  | E : InitializeFromXML _ ?c ?e ?w ?m = Throw _ |- _ =>
      destruct (Hi c e w m); congruence
  | E : CopyFromImage _ ?c ?i ?m = Throw _ |- _ => destruct (Him c i m); congruence
  | E : CopyFromMesh _ ?c ?u ?m = Throw _ |- _ => destruct (Hm c u m); congruence
  | E : GenerateInitialPattern _ ?c ?m = Throw _ |- _ => destruct (Hg c m); congruence
  end.

(** Under [sizing_kept], carry the sizing through the later methods. *)
Ltac sizing Hk :=
  repeat match goal with
  | E : CopyFromImage _ ?c ?i ?m = Return ?m' |- _ =>
      destruct (proj1 Hk c i m m' E) as [? ?]; clear E
  | E : GenerateInitialPattern _ ?c ?m = Return ?m' |- _ =>
      destruct (proj2 Hk c m m' E) as [? ?]; clear E
  end.

(** ** The claims *)

(** C1 (does not hold on the code): the numeric locale is not put back when
    the call leaves by an exception.  Called under the locale
    ["de_DE.UTF-8"] on a file whose output type is poly data, the factory
    throws "Unsupported data type or file read error" at the [default:]
    label, the restoring [setlocale] below the [switch] is never reached,
    and the process is left in the ["C"] locale. *)
Theorem C1_locale_left_altered_on_error :
  let r := CreateFromFile quiet "pattern.vtp" poly_data_file true 0 0 german in
  result r = Throw (runtime_error "Unsupported data type or file read error") /\
  trace r = [Call.setlocale "C"; Call.ReadOutputType "pattern.vtp"] /\
  LC_NUMERIC german = "de_DE.UTF-8" /\
  LC_NUMERIC (final r) = "C".
Proof. vm_compute. repeat split. Qed.

(** C2, as stated, fails: with type tag "formula" and no OpenCL, a file
    whose point data holds no array is turned down for the missing array,
    not for the missing OpenCL. *)
Lemma C2_counterexample :
  let file := image_file image_without_arrays "formula" "Gray-Scott" [] false in
  let r := CreateFromFile quiet "pattern.vti" file false 0 0 german in
  GetType file = "formula" /\
  result r = Throw (runtime_error "No arrays in image point data.") /\
  result r <> Throw (runtime_error (GetOpenCLInstallationHints quiet)).
Proof. vm_compute. repeat split; discriminate. Qed.

(** C2 (amended): with type tag "formula" or "kernel" and
    [is_opencl_available = false] the factory never returns a model.  When
    the container was read and its data section has at least one array, the
    exception is the [runtime_error] whose message is
    [OpenCL_utils::GetOpenCLInstallationHints()].  A file that does not get
    that far is turned down with the error of the check it fails: another
    output type, a reader without output, a container without its data
    section, a data section without arrays. *)
Theorem C2_compute_unavailable {P} (rd : Methods P) fn file p d st :
  GetType file = "formula" \/ GetType file = "kernel" ->
  let r := CreateFromFile rd fn file false p d st in
  (forall sys, result r <> Return sys) /\
  (data_present file ->
   result r = Throw (runtime_error (GetOpenCLInstallationHints rd))) /\
  (ReadOutputType file <> VTK_IMAGE_DATA ->
   ReadOutputType file <> VTK_UNSTRUCTURED_GRID ->
   result r = Throw (runtime_error "Unsupported data type or file read error")) /\
  (ReadOutputType file = VTK_IMAGE_DATA ->
     (ImageOutput file = None ->
      result r = Throw (runtime_error "Failed to read image.")) /\
     (forall image, ImageOutput file = Some image ->
        (GetPointData image = None ->
         result r = Throw (runtime_error "Image has no point data.")) /\
        (GetPointData image = Some [] ->
         result r = Throw (runtime_error "No arrays in image point data.")))) /\
  (ReadOutputType file = VTK_UNSTRUCTURED_GRID ->
     (UnstructuredGridOutput file = None ->
      result r = Throw (runtime_error "Failed to read unstructured grid.")) /\
     (forall ugrid, UnstructuredGridOutput file = Some ugrid ->
        (GetCellData ugrid = None ->
         result r = Throw (runtime_error "Unstructured grid has no cell data.")) /\
        (GetCellData ugrid = Some [] ->
         result r = Throw (runtime_error "No arrays in unstructured grid cell data.")))).
Proof.
  intros Htype r. subst r. split; [|split; [|split; [|split]]].
  - intros sys. destruct Htype as [H|H]; run_factory; try discriminate.
    all: rewrite H in *; discriminate.
  - intros (a0 & others & Hdata). unfold container_data in Hdata.
    destruct Htype as [H|H]; run_factory; try reflexivity; try discriminate.
    all: try (rewrite H in *; discriminate).
    all: simplify_eq/=.
  - intros H1 H2. apply Z.eqb_neq in H1, H2.
    unfold CreateFromFile. rewrite H1, H2. reflexivity.
  - intros Htop. unfold CreateFromFile, CreateFromImageDataFile. rewrite Htop.
    change (VTK_IMAGE_DATA =? VTK_IMAGE_DATA) with true. cbv iota.
    split.
    + intros Hnone. rewrite Hnone. reflexivity.
    + intros image Himage. rewrite Himage.
      split; intros Hdata; rewrite Hdata; reflexivity.
  - intros Htop. unfold CreateFromFile, CreateFromUnstructuredGridFile. rewrite Htop.
    change (VTK_UNSTRUCTURED_GRID =? VTK_IMAGE_DATA) with false.
    change (VTK_UNSTRUCTURED_GRID =? VTK_UNSTRUCTURED_GRID) with true. cbv iota.
    split.
    + intros Hnone. rewrite Hnone. reflexivity.
    + intros ugrid Hgrid. rewrite Hgrid.
      split; intros Hdata; rewrite Hdata; reflexivity.
Qed.

(** C3: the factory knows two topologies.  For output type image data it
    calls [CreateFromImageDataFile] and not [CreateFromUnstructuredGridFile],
    and a model it returns is of an image class; for output type
    unstructured grid it is the other way round; for every other output
    type it throws "Unsupported data type or file read error" having called
    neither sub-constructor and constructed nothing. *)
Theorem C3_dispatch {P} (rd : Methods P) fn file gpu p d st :
  let r := CreateFromFile rd fn file gpu p d st in
  (ReadOutputType file = VTK_IMAGE_DATA ->
     (Call.CreateFromImageDataFile ∈ trace r) /\
     (Call.CreateFromUnstructuredGridFile ∉ trace r) /\
     forall sys, result r = Return sys -> is_image_class (class sys) = true) /\
  (ReadOutputType file = VTK_UNSTRUCTURED_GRID ->
     (Call.CreateFromUnstructuredGridFile ∈ trace r) /\
     (Call.CreateFromImageDataFile ∉ trace r) /\
     forall sys, result r = Return sys -> is_mesh_class (class sys) = true) /\
  (ReadOutputType file <> VTK_IMAGE_DATA ->
   ReadOutputType file <> VTK_UNSTRUCTURED_GRID ->
     result r = Throw (runtime_error "Unsupported data type or file read error") /\
     (Call.CreateFromImageDataFile ∉ trace r) /\
     (Call.CreateFromUnstructuredGridFile ∉ trace r) /\
     forall c, Call.make_unique c ∉ trace r).
Proof.
  intros r. subst r. split; [|split].
  - intros H. unfold CreateFromFile. rewrite H.
    change (VTK_IMAGE_DATA =? VTK_IMAGE_DATA) with true. cbv iota.
    run_factory;
      (split; [present | split; [absent | intros; simplify_eq/=; reflexivity]]).
  - intros H. unfold CreateFromFile. rewrite H.
    change (VTK_UNSTRUCTURED_GRID =? VTK_IMAGE_DATA) with false.
    change (VTK_UNSTRUCTURED_GRID =? VTK_UNSTRUCTURED_GRID) with true. cbv iota.
    run_factory;
      (split; [present | split; [absent | intros; simplify_eq/=; reflexivity]]).
  - intros H1 H2. unfold CreateFromFile.
    apply Z.eqb_neq in H1, H2. rewrite H1, H2.
    run_factory.
    split; [reflexivity | split; [absent | split; [absent | intros c; absent]]].
Qed.

(** C4: for a file whose container was read with its arrays and whose type
    tag is "inbuilt".  With name "Gray-Scott" the factory raises none of its
    own errors, a model it returns is a [GrayScottImageRD] (image) or a
    [GrayScottMeshRD] (mesh), constructed without platform or device, and
    it does return one when no method raises.  With any other name it
    throws "Unsupported inbuilt implementation: <name>" and constructs
    nothing. *)
Theorem C4_inbuilt {P} (rd : Methods P) fn file gpu p d st :
  data_present file ->
  GetType file = "inbuilt" ->
  let r := CreateFromFile rd fn file gpu p d st in
  (GetName file = "Gray-Scott" ->
     (forall what, result r <> Throw (runtime_error what)) /\
     (forall sys, result r = Return sys ->
        class sys = (if ReadOutputType file =? VTK_IMAGE_DATA
                     then GrayScottImageRD else GrayScottMeshRD) /\
        compute_binding (class sys) = None) /\
     (reliable rd -> exists sys, result r = Return sys)) /\
  (GetName file <> "Gray-Scott" ->
     result r =
       Throw (runtime_error ("Unsupported inbuilt implementation: " +:+ GetName file)) /\
     forall c, Call.make_unique c ∉ trace r).
Proof.
  intros (a0 & others & Hdata) Htype r. subst r.
  unfold container_data in Hdata. split.
  - intros Hname.
    unfold CreateFromFile, CreateFromImageDataFile, CreateFromUnstructuredGridFile.
    rewrite Htype, Hname. simpl String.eqb. cbv iota.
    run_factory; simplify_eq/=.
    all: (split; [intros; discriminate
                 | split; [intros; simplify_eq/=; split; reflexivity|]]).
    all: intros Hrel; try (eexists; reflexivity); never_raises Hrel.
  - intros Hname. apply String.eqb_neq in Hname.
    unfold CreateFromFile, CreateFromImageDataFile, CreateFromUnstructuredGridFile.
    rewrite Htype, Hname. simpl String.eqb. cbv iota.
    run_factory; simplify_eq/=; (split; [reflexivity | intros c; absent]).
Qed.

(** C5: a model returned for an image file has the input path as its file
    name and is not modified; when [CopyFromImage] and
    [GenerateInitialPattern] leave the sizing alone, its dimensions are the
    image's and, the product being an [int], its number of chemicals is
    (scalar components) x (number of point-data arrays). *)
Theorem C5_loaded_image {P} (rd : Methods P) fn file gpu p d st image point_data sys :
  ReadOutputType file = VTK_IMAGE_DATA ->
  ImageOutput file = Some image ->
  GetPointData image = Some point_data ->
  result (CreateFromFile rd fn file gpu p d st) = Return sys ->
  filename (members sys) = fn /\
  modified (members sys) = false /\
  (sizing_kept rd ->
     dimensions (members sys) = GetDimensions image /\
     (INT_MIN <= GetNumberOfScalarComponents image * GetNumberOfArrays point_data
        <= INT_MAX ->
      number_of_chemicals (members sys) =
        GetNumberOfScalarComponents image * GetNumberOfArrays point_data)).
Proof.
  intros Htop Himage Hdata.
  unfold CreateFromFile, CreateFromImageDataFile.
  rewrite Htop, Himage, Hdata.
  change (VTK_IMAGE_DATA =? VTK_IMAGE_DATA) with true. cbv iota.
  run_factory; intros Hres; simplify_eq/=.
  all: (split; [reflexivity | split; [reflexivity | intros Hk]]).
  all: sizing Hk; simpl in *.
  all: split;
    [ destruct (GetDimensions image) as [[? ?] ?]; simpl in *; congruence
    | intros Hrange; unfold int_mul in *;
      rewrite wrap_int_in_range in * by exact Hrange; congruence ].
Qed.

(** C6: a container without its data section, and one whose data section
    holds no array, are both turned down, no model is returned, and the two
    exceptions differ: "... has no point data." / "... has no cell data."
    against "No arrays in ...". *)
Theorem C6_missing_data {P} (rd : Methods P) fn file gpu p d st :
  let r := CreateFromFile rd fn file gpu p d st in
  (container_data file = Some None ->
     exists e, result r = Throw e /\ no_data_section_error e) /\
  (container_data file = Some (Some []) ->
     exists e, result r = Throw e /\ no_arrays_error e) /\
  (forall e, no_data_section_error e -> ~ no_arrays_error e).
Proof.
  intros r. subst r. unfold container_data. split; [|split].
  - intros H. run_factory; simplify_eq/=; eexists; (split; [reflexivity|]);
      unfold no_data_section_error; auto.
  - intros H. run_factory; simplify_eq/=; eexists; (split; [reflexivity|]);
      unfold no_arrays_error; auto.
  - intros e [->| ->] [H|H]; discriminate H.
Qed.

(** C7: after a successful call, if the RD element has a nested
    [render_settings] element the caller's store is the overlay of that
    element on the store as it was, so every name the element does not
    mention has kept its value; if it has none, the store is as it was. *)
Theorem C7_render_settings {P} (rd : Methods P) fn file gpu p d st sys :
  let r := CreateFromFile rd fn file gpu p d st in
  result r = Return sys ->
  match FindNestedElementWithName (GetRDElement file) "render_settings" with
  | Some xml_render_settings =>
      render_settings (final r) =
        OverwriteFromXML xml_render_settings (render_settings st) /\
      forall name, name ∉ mentioned xml_render_settings ->
        render_settings (final r) !! name = render_settings st !! name
  | None => render_settings (final r) = render_settings st
  end.
Proof.
  intros r. subst r.
  destruct (FindNestedElementWithName (GetRDElement file) "render_settings")
    as [node|] eqn:Hfind.
  - unfold_factory; rewrite Hfind; simpl; repeat step; intros Hres;
      try discriminate.
    all: split;
      [reflexivity | intros name Hname; apply OverwriteFromXML_unmentioned, Hname].
  - unfold_factory; rewrite Hfind; simpl; repeat step; intros Hres;
      try discriminate; reflexivity.
Qed.

(** C8: in the calls of any run, [GenerateInitialPattern] appears only if
    the reader says the pattern is to be generated when loading; and
    wherever it appears, the sizing calls of that sub-constructor are all
    before it and none comes after it. *)
Theorem C8_generation_after_sizing {P} (rd : Methods P) fn file gpu p d st :
  let t := trace (CreateFromFile rd fn file gpu p d st) in
  ((Call.GenerateInitialPattern ∈ t) ->
     ShouldGenerateInitialPatternWhenLoading file = true) /\
  (forall before after, t = before ++ Call.GenerateInitialPattern :: after ->
     sizing_done file before /\
     forall c, c ∈ after -> is_sizing_call c = false).
Proof.
  intros t. subst t. split.
  - destruct (ShouldGenerateInitialPatternWhenLoading file) eqn:Hgen; [reflexivity|].
    unfold CreateFromFile, CreateFromImageDataFile, CreateFromUnstructuredGridFile,
      generate_if_requested. rewrite Hgen.
    run_factory; intros Hin; exfalso; revert Hin; absent.
  - intros before after. unfold sizing_done.
    run_factory; intros Hsplit.
    all: locate Hsplit before.
    all: try (destruct before; discriminate Hsplit).
    all: injection Hsplit as <-.
    all: split;
      [ first [ present | split; [do 3 eexists; present | split; [eexists; present | present]] ]
      | intros c Hc;
        repeat (apply elem_of_cons in Hc as [->|Hc]; [reflexivity|]);
        apply elem_of_nil in Hc; contradiction ].
Qed.

(** *** Runs on files that differ in the name tag *)

Lemma bind_cong {A B} (m1 m2 : M A) (k1 k2 : A -> M B) (st : State) :
  m1 st = m2 st ->
  (forall a s, k1 a s = k2 a s) ->
  bind m1 k1 st = bind m2 k2 st.
Proof.
  intros Hm Hk. unfold bind. rewrite Hm.
  destruct (m2 st) as [[a|e] s t]; [rewrite (Hk a s)|]; reflexivity.
Qed.

Lemma same_selection_refl {P} (r : Run (AbstractRD P)) : same_selection r r.
Proof. repeat split; try tauto. intros sys1 sys2 H1 H2. congruence. Qed.

Lemma same_selection_prefix {P A} (m : M A) (k1 k2 : A -> M (AbstractRD P)) st :
  (forall a s, same_selection (k1 a s) (k2 a s)) ->
  same_selection (bind m k1 st) (bind m k2 st).
Proof.
  intros Hk. unfold bind.
  destruct (m st) as [[a|e] s t]; [|apply same_selection_refl].
  specialize (Hk a s).
  destruct (k1 a s) as [r1 s1 t1], (k2 a s) as [r2 s2 t2].
  destruct Hk as (Herr & Hmade & Hclass). simpl in *.
  split; [exact Herr | split; [|exact Hclass]].
  simpl. rewrite !List.filter_app, Hmade. reflexivity.
Qed.

Lemma same_selection_finish {P} (m1 m2 : M (AbstractRD P)) k1 k2 st :
  same_selection (m1 st) (m2 st) ->
  finishing k1 -> finishing k2 ->
  same_selection (bind m1 k1 st) (bind m2 k2 st).
Proof.
  intros (Herr & Hmade & Hclass) Hk1 Hk2. unfold bind.
  destruct (m1 st) as [[a1|e1] s1 t1], (m2 st) as [[a2|e2] s2 t2]; simpl in *.
  - destruct (Hk1 a1 s1) as (Hno1 & Hmade1 & Hclass1).
    destruct (Hk2 a2 s2) as (Hno2 & Hmade2 & Hclass2).
    destruct (k1 a1 s1) as [r1 s1' t1'], (k2 a2 s2) as [r2 s2' t2']; simpl in *.
    split; [split|split].
    + intros H. destruct (Hno1 _ H).
    + intros H. destruct (Hno2 _ H).
    + simpl. rewrite !List.filter_app, Hmade, Hmade1, Hmade2. reflexivity.
    + intros sys1 sys2 H1 H2.
      rewrite (Hclass1 _ H1), (Hclass2 _ H2). apply (Hclass a1 a2); reflexivity.
  - destruct (Hk1 a1 s1) as (Hno1 & Hmade1 & Hclass1).
    destruct (k1 a1 s1) as [r1 s1' t1']; simpl in *.
    split; [split|split].
    + intros H. destruct (Hno1 _ H).
    + intros H. apply Herr in H. discriminate H.
    + simpl. rewrite List.filter_app, Hmade, Hmade1, app_nil_r. reflexivity.
    + intros sys1 sys2 _ H2. discriminate H2.
  - destruct (Hk2 a2 s2) as (Hno2 & Hmade2 & Hclass2).
    destruct (k2 a2 s2) as [r2 s2' t2']; simpl in *.
    split; [split|split].
    + intros H. apply Herr in H. discriminate H.
    + intros H. destruct (Hno2 _ H).
    + simpl. rewrite List.filter_app, <- Hmade, Hmade2, app_nil_r. reflexivity.
    + intros sys1 sys2 H1 _. discriminate H1.
  - split; [exact Herr | split; [exact Hmade|]].
    intros sys1 sys2 H1. discriminate H1.
Qed.

Ltac finish_by_cases :=
  let a := fresh "a" in let s := fresh "s" in
  intros a s; cbv beta; unfold_factory; simpl; repeat step;
  (split; [intros; discriminate
          | split; [reflexivity | intros; simplify_eq/=; reflexivity]]).

Lemma image_selection_ignores_name {P} (rd : Methods P) fn f1 f2 gpu p d st :
  same_but_name_tag f1 f2 ->
  GetType f1 = "formula" \/ GetType f1 = "kernel" ->
  same_selection (CreateFromImageDataFile rd fn f1 gpu p d st)
                 (CreateFromImageDataFile rd fn f2 gpu p d st).
Proof.
  intros (Htop & Himage & Hgrid & Htype & Hgen & Hfind) Hrule.
  unfold CreateFromImageDataFile. rewrite <- Himage, <- Htype.
  apply same_selection_prefix; intros _ s1.
  apply same_selection_prefix; intros _ s2.
  destruct (ImageOutput f1) as [image|]; [|apply same_selection_refl].
  destruct (GetPointData image) as [point_data|]; [|apply same_selection_refl].
  destruct (GetArray point_data 0) as [array0|]; [|apply same_selection_refl].
  destruct Hrule as [H|H]; rewrite H; simpl String.eqb; cbv iota zeta.
  all: apply same_selection_finish; [apply same_selection_refl | |].
  all: finish_by_cases.
Qed.

Lemma mesh_selection_ignores_name {P} (rd : Methods P) fn f1 f2 gpu p d st :
  same_but_name_tag f1 f2 ->
  GetType f1 = "formula" \/ GetType f1 = "kernel" ->
  same_selection (CreateFromUnstructuredGridFile rd fn f1 gpu p d st)
                 (CreateFromUnstructuredGridFile rd fn f2 gpu p d st).
Proof.
  intros (Htop & Himage & Hgrid & Htype & Hgen & Hfind) Hrule.
  unfold CreateFromUnstructuredGridFile. rewrite <- Hgrid, <- Htype.
  apply same_selection_prefix; intros _ s1.
  apply same_selection_prefix; intros _ s2.
  destruct (UnstructuredGridOutput f1) as [ugrid|]; [|apply same_selection_refl].
  destruct (GetCellData ugrid) as [cell_data|]; [|apply same_selection_refl].
  destruct (GetArray cell_data 0) as [array0|]; [|apply same_selection_refl].
  destruct Hrule as [H|H]; rewrite H; simpl String.eqb; cbv iota zeta.
  all: apply same_selection_finish; [apply same_selection_refl | |].
  all: finish_by_cases.
Qed.

Lemma factory_selection_ignores_name {P} (rd : Methods P) fn f1 f2 gpu p d st :
  same_but_name_tag f1 f2 ->
  GetType f1 = "formula" \/ GetType f1 = "kernel" ->
  same_selection (CreateFromFile rd fn f1 gpu p d st)
                 (CreateFromFile rd fn f2 gpu p d st).
Proof.
  intros Hsame Hrule. pose proof Hsame as (Htop & _).
  unfold CreateFromFile. rewrite <- Htop.
  apply same_selection_prefix; intros old_locale s1.
  apply same_selection_prefix; intros _ s2.
  cbv zeta.
  apply same_selection_finish.
  - destruct (ReadOutputType f1 =? VTK_IMAGE_DATA);
      [apply image_selection_ignores_name; assumption|].
    destruct (ReadOutputType f1 =? VTK_UNSTRUCTURED_GRID);
      [apply mesh_selection_ignores_name; assumption | apply same_selection_refl].
  - finish_by_cases.
  - finish_by_cases.
Qed.

Lemma initialize_alike {P} (rd : Methods P) f1 f2 sys s :
  hydrated_alike rd f1 f2 ->
  initialize_from_xml rd (GetRDElement f1) sys s =
  initialize_from_xml rd (GetRDElement f2) sys s.
Proof.
  intros Hinit. unfold initialize_from_xml.
  apply bind_cong; [reflexivity|]. intros _ s1.
  apply bind_cong; [reflexivity|]. intros st s2.
  rewrite Hinit. reflexivity.
Qed.

Lemma overlay_alike f1 f2 s :
  same_but_name_tag f1 f2 ->
  overlay_render_settings (GetRDElement f1) s =
  overlay_render_settings (GetRDElement f2) s.
Proof.
  intros (_ & _ & _ & _ & _ & Hfind).
  unfold overlay_render_settings. rewrite Hfind. reflexivity.
Qed.

(** One step of two runs that go alike. *)
Ltac alike_step Hsame Halike :=
  apply bind_cong;
  [ first [ reflexivity
          | apply initialize_alike; exact Halike
          | apply overlay_alike; exact Hsame ]
  | intros ].

Lemma image_run_ignores_name {P} (rd : Methods P) fn f1 f2 gpu p d st :
  same_but_name_tag f1 f2 ->
  GetType f1 = "formula" \/ GetType f1 = "kernel" ->
  hydrated_alike rd f1 f2 ->
  CreateFromImageDataFile rd fn f1 gpu p d st =
  CreateFromImageDataFile rd fn f2 gpu p d st.
Proof.
  intros Hsame Hrule Halike. pose proof Hsame as (Htop & Himage & Hgrid & Htype & Hgen & Hfind).
  unfold CreateFromImageDataFile, generate_if_requested.
  rewrite <- Himage, <- Htype, <- Hgen.
  do 2 alike_step Hsame Halike.
  destruct (ImageOutput f1) as [image|]; [|reflexivity].
  destruct (GetPointData image) as [point_data|]; [|reflexivity].
  destruct (GetArray point_data 0) as [array0|]; [|reflexivity].
  destruct Hrule as [H|H]; rewrite H; simpl String.eqb; cbv iota zeta.
  all: repeat alike_step Hsame Halike; reflexivity.
Qed.

Lemma mesh_run_ignores_name {P} (rd : Methods P) fn f1 f2 gpu p d st :
  same_but_name_tag f1 f2 ->
  GetType f1 = "formula" \/ GetType f1 = "kernel" ->
  hydrated_alike rd f1 f2 ->
  CreateFromUnstructuredGridFile rd fn f1 gpu p d st =
  CreateFromUnstructuredGridFile rd fn f2 gpu p d st.
Proof.
  intros Hsame Hrule Halike. pose proof Hsame as (Htop & Himage & Hgrid & Htype & Hgen & Hfind).
  unfold CreateFromUnstructuredGridFile, generate_if_requested.
  rewrite <- Hgrid, <- Htype, <- Hgen.
  do 2 alike_step Hsame Halike.
  destruct (UnstructuredGridOutput f1) as [ugrid|]; [|reflexivity].
  destruct (GetCellData ugrid) as [cell_data|]; [|reflexivity].
  destruct (GetArray cell_data 0) as [array0|]; [|reflexivity].
  destruct Hrule as [H|H]; rewrite H; simpl String.eqb; cbv iota zeta.
  all: repeat alike_step Hsame Halike; reflexivity.
Qed.

Lemma factory_run_ignores_name {P} (rd : Methods P) fn f1 f2 gpu p d st :
  same_but_name_tag f1 f2 ->
  GetType f1 = "formula" \/ GetType f1 = "kernel" ->
  hydrated_alike rd f1 f2 ->
  CreateFromFile rd fn f1 gpu p d st = CreateFromFile rd fn f2 gpu p d st.
Proof.
  intros Hsame Hrule Halike. pose proof Hsame as (Htop & _).
  unfold CreateFromFile. rewrite <- Htop.
  do 2 (apply bind_cong; [reflexivity | intros]).
  cbv zeta. apply bind_cong; [|reflexivity].
  destruct (ReadOutputType f1 =? VTK_IMAGE_DATA);
    [apply image_run_ignores_name; assumption|].
  destruct (ReadOutputType f1 =? VTK_UNSTRUCTURED_GRID);
    [apply mesh_run_ignores_name; assumption | reflexivity].
Qed.



(** C10: when the call fails with one of the factory's own errors
    (unsupported format, unreadable file, missing data, unsupported rule
    type, unknown inbuilt name, OpenCL unavailable), the caller's render
    settings are as they were: every [throw] of the factory comes before the
    overlay. *)
Theorem C10_failure_keeps_render_settings {P} (rd : Methods P) fn file gpu p d st e :
  let r := CreateFromFile rd fn file gpu p d st in
  result r = Throw e ->
  factory_failure rd e ->
  render_settings (final r) = render_settings st.
Proof.
  intros r Hres Hkind. subst r.
  apply factory_failure_runtime_error in Hkind as [what ->].
  revert Hres. run_factory; intros Hres; try discriminate Hres; reflexivity.
Qed.

(** The frame of C10 stops at the factory's own errors: an exception raised
    by a method called after the overlay leaves the overlaid settings in
    the caller's store. *)
Example overlay_survives_later_exception :
  let file := image_file image_32_32_1 "inbuilt" "Gray-Scott" [some_render_settings] false in
  let r := CreateFromFile picky "pattern.vti" file false 0 0 german in
  result r = Throw (raised_in "CopyFromImage" "CopyFromImage: dimensions do not match") /\
  render_settings (final r) !! "timesteps_per_render" = Some [("value", "100")] /\
  render_settings german !! "timesteps_per_render" = Some [("value", "1")].
Proof. vm_compute. repeat split. Qed.

(** ** The theorems at concrete inputs *)

Lemma C2_compute_unavailable_witness :
  let file := image_file image_32_32_1 "kernel" "mine" [] false in
  let bare := image_file image_without_arrays "kernel" "mine" [] false in
  result (CreateFromFile quiet "pattern.vti" file false 0 0 german) =
    Throw (runtime_error (GetOpenCLInstallationHints quiet)) /\
  result (CreateFromFile quiet "pattern.vti" bare false 0 0 german) =
    Throw (runtime_error "No arrays in image point data.").
Proof.
  intros file bare.
  assert (Hd : data_present file)
    by (exists (Build_vtkDataArray VTK_FLOAT 3), []; reflexivity).
  split.
  - destruct (C2_compute_unavailable quiet "pattern.vti" file 0 0 german
                (or_intror eq_refl)) as (_ & Hhints & _).
    exact (Hhints Hd).
  - destruct (C2_compute_unavailable quiet "pattern.vti" bare 0 0 german
                (or_intror eq_refl)) as (_ & _ & _ & Himage & _).
    destruct (Himage eq_refl) as [_ Hread].
    destruct (Hread image_without_arrays eq_refl) as [_ Hempty].
    exact (Hempty eq_refl).
Defined.

Lemma C3_dispatch_witness :
  let image := image_file image_32_32_1 "inbuilt" "Gray-Scott" [] false in
  let mesh := mesh_file mesh_of_20_cells "inbuilt" "Gray-Scott" [] false in
  (Call.CreateFromUnstructuredGridFile ∉
     trace (CreateFromFile quiet "pattern.vti" image false 0 0 german)) /\
  (Call.CreateFromImageDataFile ∉
     trace (CreateFromFile quiet "pattern.vtu" mesh false 0 0 german)) /\
  result (CreateFromFile quiet "pattern.vtp" poly_data_file false 0 0 german) =
    Throw (runtime_error "Unsupported data type or file read error").
Proof.
  intros image mesh. split; [|split].
  - apply (proj1 (C3_dispatch quiet "pattern.vti" image false 0 0 german)).
    reflexivity.
  - apply (proj1 (proj2 (C3_dispatch quiet "pattern.vtu" mesh false 0 0 german))).
    reflexivity.
  - apply (proj2 (proj2 (C3_dispatch quiet "pattern.vtp" poly_data_file false 0 0 german)));
      vm_compute; discriminate.
Defined.

Lemma C4_inbuilt_witness :
  let good := mesh_file mesh_of_20_cells "inbuilt" "Gray-Scott" [] false in
  let bad := image_file image_32_32_1 "inbuilt" "Bogus" [] false in
  (exists sys, result (CreateFromFile quiet "pattern.vtu" good false 0 0 german) = Return sys) /\
  result (CreateFromFile quiet "pattern.vti" bad false 0 0 german) =
    Throw (runtime_error "Unsupported inbuilt implementation: Bogus").
Proof.
  intros good bad.
  assert (Hgood : data_present good)
    by (exists (Build_vtkDataArray VTK_FLOAT 1), [Build_vtkDataArray VTK_FLOAT 1];
        reflexivity).
  assert (Hbad : data_present bad)
    by (exists (Build_vtkDataArray VTK_FLOAT 3), []; reflexivity).
  split.
  - apply (proj1 (C4_inbuilt quiet "pattern.vtu" good false 0 0 german Hgood eq_refl));
      [reflexivity | exact quiet_reliable].
  - apply (proj2 (C4_inbuilt quiet "pattern.vti" bad false 0 0 german Hbad eq_refl)).
    vm_compute; discriminate.
Defined.

Lemma C5_loaded_image_witness :
  let file := image_file image_32_32_1 "inbuilt" "Gray-Scott" [] true in
  exists sys,
    result (CreateFromFile quiet "pattern.vti" file false 0 0 german) = Return sys /\
    filename (members sys) = "pattern.vti" /\
    modified (members sys) = false /\
    dimensions (members sys) = (32, 32, 1) /\
    number_of_chemicals (members sys) = 3.
Proof.
  intros file.
  eexists. split; [reflexivity|].
  destruct (C5_loaded_image quiet "pattern.vti" file false 0 0 german image_32_32_1
              [Build_vtkDataArray VTK_FLOAT 3] _ eq_refl eq_refl eq_refl eq_refl)
    as (Hname & Hmod & Hsize).
  destruct (Hsize quiet_keeps_sizing) as [Hdim Hnc].
  split; [exact Hname | split; [exact Hmod | split; [exact Hdim|]]].
  apply Hnc. vm_compute. split; discriminate.
Defined.

Lemma C6_missing_data_witness :
  let none := image_file image_without_point_data "inbuilt" "Gray-Scott" [] false in
  let empty := mesh_file mesh_without_arrays "inbuilt" "Gray-Scott" [] false in
  (exists e, result (CreateFromFile quiet "pattern.vti" none false 0 0 german) = Throw e /\
             no_data_section_error e) /\
  (exists e, result (CreateFromFile quiet "pattern.vtu" empty false 0 0 german) = Throw e /\
             no_arrays_error e).
Proof.
  intros none empty. split.
  - apply (proj1 (C6_missing_data quiet "pattern.vti" none false 0 0 german)).
    reflexivity.
  - apply (proj1 (proj2 (C6_missing_data quiet "pattern.vtu" empty false 0 0 german))).
    reflexivity.
Defined.

Lemma C7_render_settings_witness :
  let file := image_file image_32_32_1 "inbuilt" "Gray-Scott" [some_render_settings] false in
  let r := CreateFromFile quiet "pattern.vti" file false 0 0 german in
  render_settings (final r) !! "show_cell_edges" = Some [("value", "true")] /\
  render_settings (final r) !! "timesteps_per_render" = Some [("value", "100")].
Proof.
  intros file r. split; [|reflexivity].
  pose proof (C7_render_settings quiet "pattern.vti" file false 0 0 german _ eq_refl)
    as [_ Hframe].
  change (render_settings (final r) !! "show_cell_edges" =
          render_settings german !! "show_cell_edges").
  apply Hframe. unfold mentioned. simpl.
  intros Hin.
  repeat (apply elem_of_cons in Hin as [Hin|Hin]; [discriminate Hin|]).
  apply elem_of_nil in Hin. exact Hin.
Defined.

Lemma C8_generation_after_sizing_witness :
  let file := image_file image_32_32_1 "inbuilt" "Gray-Scott" [] true in
  sizing_done file
    [Call.setlocale "C"; Call.ReadOutputType "pattern.vti";
     Call.CreateFromImageDataFile; Call.ImageReaderUpdate "pattern.vti";
     Call.make_unique GrayScottImageRD; Call.InitializeFromXML;
     Call.SetDimensions 32 32 1; Call.SetNumberOfChemicals 3; Call.CopyFromImage].
Proof.
  intros file.
  apply (proj2 (C8_generation_after_sizing quiet "pattern.vti" file false 0 0 german) _
           [Call.setlocale "C"; Call.SetFilename "pattern.vti"; Call.SetModified false]).
  reflexivity.
Defined.


Lemma C10_failure_keeps_render_settings_witness :
  let file := image_file image_32_32_1 "inbuilt" "Bogus" [some_render_settings] false in
  render_settings (final (CreateFromFile quiet "pattern.vti" file false 0 0 german)) =
  render_settings german.
Proof.
  intros file.
  apply (C10_failure_keeps_render_settings quiet "pattern.vti" file false 0 0 german
           (runtime_error ("Unsupported inbuilt implementation: " +:+ "Bogus"))).
  - reflexivity.
  - apply unknown_inbuilt_name.
Defined.

(** ** More of the factory *)

(** X1: with the arrays present and a type tag other than "inbuilt",
    "formula" and "kernel", the factory throws "Unsupported rule type:
    <type>" and constructs nothing. *)
Theorem other_rule_type_rejected {P} (rd : Methods P) fn file gpu p d st :
  data_present file ->
  GetType file <> "inbuilt" -> GetType file <> "formula" -> GetType file <> "kernel" ->
  let r := CreateFromFile rd fn file gpu p d st in
  result r = Throw (runtime_error ("Unsupported rule type: " +:+ GetType file)) /\
  (forall c, Call.make_unique c ∉ trace r).
Proof.
  intros (a0 & others & Hdata) H1 H2 H3 r. subst r.
  apply String.eqb_neq in H1, H2, H3.
  unfold container_data in Hdata.
  unfold CreateFromFile, CreateFromImageDataFile, CreateFromUnstructuredGridFile.
  rewrite H1, H2, H3.
  run_factory; simplify_eq/=; (split; [reflexivity | intros c; absent]).
Qed.

(** X2: with OpenCL available and type tag "formula" or "kernel", the
    factory raises none of its own errors; a model it returns is of the
    class for the topology and the rule type, constructed with the caller's
    platform and device and with the data type of the first array; and it
    returns one when no method raises. *)
Theorem opencl_rule_binding {P} (rd : Methods P) fn file p d st array0 others :
  container_data file = Some (Some (array0 :: others)) ->
  GetType file = "formula" \/ GetType file = "kernel" ->
  let r := CreateFromFile rd fn file true p d st in
  (forall what, result r <> Throw (runtime_error what)) /\
  (forall sys, result r = Return sys ->
     class sys = opencl_class file p d (GetDataType array0) /\
     compute_binding (class sys) = Some (p, d)) /\
  (reliable rd -> exists sys, result r = Return sys).
Proof.
  intros Hdata Htype r. subst r.
  unfold container_data in Hdata. unfold opencl_class.
  unfold CreateFromFile, CreateFromImageDataFile, CreateFromUnstructuredGridFile.
  destruct Htype as [H|H]; rewrite H; simpl String.eqb; cbv iota.
  all: run_factory; simplify_eq/=.
  all: (split; [intros; discriminate
               | split; [intros; simplify_eq/=; split; reflexivity|]]).
  all: intros Hrel; try (eexists; reflexivity); never_raises Hrel.
Qed.

(** X3: a model is returned only for a file whose container was read with
    at least one array, and whose rule is the inbuilt "Gray-Scott" or a
    "formula" or "kernel" with OpenCL available. *)
Theorem returned_model_was_checked {P} (rd : Methods P) fn file gpu p d st sys :
  result (CreateFromFile rd fn file gpu p d st) = Return sys ->
  data_present file /\
  ((GetType file = "inbuilt" /\ GetName file = "Gray-Scott") \/
   ((GetType file = "formula" \/ GetType file = "kernel") /\ gpu = true)).
Proof.
  unfold data_present, container_data.
  run_factory; intros Hres; try discriminate Hres.
  all: repeat match goal with
       | H : String.eqb _ _ = true |- _ => apply String.eqb_eq in H
       end.
  all: match goal with
       | H : GetArray ?l 0 = Some _ |- _ => destruct l; [discriminate H|]
       end.
  all: split; [simplify_eq/=; eauto|].
  all: destruct gpu; simplify_eq/=; auto.
Qed.

(** X4: for type tag "inbuilt" the three OpenCL arguments play no part:
    any two calls differing in them alone run alike. *)
Theorem inbuilt_ignores_opencl {P} (rd : Methods P) fn file st gpu1 p1 d1 gpu2 p2 d2 :
  GetType file = "inbuilt" ->
  CreateFromFile rd fn file gpu1 p1 d1 st = CreateFromFile rd fn file gpu2 p2 d2 st.
Proof.
  intros H.
  unfold CreateFromFile, CreateFromImageDataFile, CreateFromUnstructuredGridFile.
  rewrite H. simpl String.eqb. cbv iota. reflexivity.
Qed.

(** X5: when the call fails with one of the factory's own errors, no
    object was constructed, [InitializeFromXML] was not called, and
    [warn_to_update] is as the caller had it. *)
Theorem factory_failure_before_construction {P} (rd : Methods P) fn file gpu p d st e :
  let r := CreateFromFile rd fn file gpu p d st in
  result r = Throw e ->
  factory_failure rd e ->
  (forall c, Call.make_unique c ∉ trace r) /\
  (Call.InitializeFromXML ∉ trace r) /\
  warn_to_update (final r) = warn_to_update st.
Proof.
  intros r Hres Hkind. subst r.
  apply factory_failure_runtime_error in Hkind as [what ->].
  revert Hres. run_factory; intros Hres; try discriminate Hres.
  all: (split; [intros c; absent | split; [absent | reflexivity]]).
Qed.

(** X6: [setlocale] is called once when the call leaves by an exception
    and twice when it returns a model; the second call, too, is
    [setlocale(LC_NUMERIC, "C")]. *)
Theorem restoring_setlocale_iff_returned {P} (rd : Methods P) fn file gpu p d st :
  let r := CreateFromFile rd fn file gpu p d st in
  List.filter is_setlocale (trace r) =
    Call.setlocale "C" ::
      (if is_success (result r) then [Call.setlocale "C"] else []).
Proof. intros r. subst r. run_factory; reflexivity. Qed.

(** X7: the calls of a load that returns a model, in full and in order:
    locale, output type, the reader of the topology, the construction, the
    hydration and sizing of that sub-constructor (the overlay before the
    sizing for an image, after the copy-in for a mesh), the second
    [setlocale], [SetFilename], [SetModified(false)]. *)
Theorem successful_load_calls {P} (rd : Methods P) fn file gpu p d st sys :
  let r := CreateFromFile rd fn file gpu p d st in
  result r = Return sys ->
  trace r =
    [Call.setlocale "C"; Call.ReadOutputType fn] ++ reader_calls fn file ++
    [Call.make_unique (class sys)] ++ hydration_calls file ++
    [Call.setlocale "C"; Call.SetFilename fn; Call.SetModified false].
Proof.
  intros r. subst r. unfold reader_calls, hydration_calls.
  run_factory; intros Hres; try discriminate Hres; simplify_eq/=; reflexivity.
Qed.

(** X8: in any run, the overlay of the render settings happens at most
    once and after [InitializeFromXML]; for an image no sizing call comes
    before it, for a mesh [CopyFromMesh] does. *)
Theorem overlay_position {P} (rd : Methods P) fn file gpu p d st before after :
  trace (CreateFromFile rd fn file gpu p d st) = before ++ Call.OverwriteFromXML :: after ->
  (Call.InitializeFromXML ∈ before) /\
  (Call.OverwriteFromXML ∉ before) /\
  (Call.OverwriteFromXML ∉ after) /\
  (if ReadOutputType file =? VTK_IMAGE_DATA
   then forall c, c ∈ before -> is_sizing_call c = false
   else Call.CopyFromMesh ∈ before).
Proof.
  run_factory; intros Hsplit.
  all: locate Hsplit before.
  all: try (destruct before; discriminate Hsplit).
  all: injection Hsplit as <-.
  all: (split; [present | split; [absent | split; [absent|]]]).
  all: first
    [ present
    | intros c Hc;
      repeat (apply elem_of_cons in Hc as [->|Hc]; [reflexivity|]);
      apply elem_of_nil in Hc; contradiction ].
Qed.

(** X9: when a constructor, [InitializeFromXML] or [CopyFromMesh] raises,
    the caller's render settings are as they were. *)
Theorem early_method_failure_keeps_render_settings {P} (rd : Methods P)
    fn file gpu p d st callee what :
  let r := CreateFromFile rd fn file gpu p d st in
  result r = Throw (raised_in callee what) ->
  callee = "make_unique" \/ callee = "InitializeFromXML" \/ callee = "CopyFromMesh" ->
  render_settings (final r) = render_settings st.
Proof.
  intros r Hres Hcallee. subst r. revert Hres.
  run_factory; intros Hres; try discriminate Hres; try reflexivity.
  all: injection Hres as <- _; destruct Hcallee as [H|[H|H]]; discriminate H.
Qed.

(** X10: when a model is returned, [InitializeFromXML] was given the
    freshly constructed object, the RD element of the file and the caller's
    [warn_to_update], and the flag the caller finds afterwards is the one it
    answered. *)
Theorem hydration_of_fresh_object {P} (rd : Methods P) fn file gpu p d st sys :
  let r := CreateFromFile rd fn file gpu p d st in
  result r = Return sys ->
  exists fresh hydrated,
    construct rd (class sys) = Return fresh /\
    InitializeFromXML rd (class sys) (GetRDElement file) (warn_to_update st) fresh =
      Return (hydrated, warn_to_update (final r)).
Proof.
  intros r. subst r.
  run_factory; intros Hres; try discriminate Hres; simplify_eq/=.
  all: match goal with
       | H : InitializeFromXML _ _ _ _ _ = Return ?mw |- _ => destruct mw as [hydrated w]
       end.
  all: do 2 eexists; split; eassumption.
Qed.

(** ** Starting the application: proofs *)

(** ** Strings by index *)

Lemma string_length_append (s1 s2 : string) :
  String.length (s1 +:+ s2) = (String.length s1 + String.length s2)%nat.
Proof. induction s1 as [|c s1 IH]; simpl; [reflexivity | rewrite IH; reflexivity]. Qed.

Lemma string_get_append_r (s1 s2 : string) (i : nat) :
  String.get (String.length s1 + i) (s1 +:+ s2) = String.get i s2.
Proof. induction s1 as [|c s1 IH]; simpl; [reflexivity | exact IH]. Qed.

Lemma substring_append_prefix (s1 s2 : string) :
  String.substring 0 (String.length s1) (s1 +:+ s2) = s1.
Proof.
  induction s1 as [|c s1 IH]; simpl.
  - destruct s2; reflexivity.
  - rewrite IH. reflexivity.
Qed.

Lemma substring_length_le (s : string) (n : nat) :
  (String.length (String.substring 0 n s) <= n)%nat.
Proof.
  revert n. induction s as [|c s IH]; intros [|n]; simpl; try lia.
  specialize (IH n). lia.
Qed.

Lemma Last_append_char (s : string) (c : ascii) :
  Last (s +:+ String c "") = Some c.
Proof.
  unfold Last. rewrite string_length_append. simpl.
  replace (String.length s + 1 - 1)%nat with (String.length s + 0)%nat by lia.
  rewrite string_get_append_r. reflexivity.
Qed.

Lemma strlen_unsigned_small (s : string) :
  Z.of_nat (String.length s) < 2 ^ 32 -> strlen_unsigned s = String.length s.
Proof.
  intros H. unfold strlen_unsigned. rewrite Z.mod_small by lia. apply Nat2Z.id.
Qed.

Lemma strlen_unsigned_le (s : string) : (strlen_unsigned s <= String.length s)%nat.
Proof.
  unfold strlen_unsigned.
  pose proof (Z.mod_le (Z.of_nat (String.length s)) (2 ^ 32)).
  pose proof (Z.mod_pos_bound (Z.of_nat (String.length s)) (2 ^ 32)).
  lia.
Qed.

(** ** The scan for the last ['/'] *)

(** X11: the scan of [SetAppDirectory].  Started at [n], the loop leaves
    [pos] at most [n], with no ['/'] strictly between [pos] and [n]; and
    when [pos] is not 0 it is below [n] and [argv0[pos]] is a ['/'].  So
    [pos] is the index of the last ['/'] before [n], or 0 when there is none
    after index 0. *)
Theorem last_slash_postcondition (argv0 : string) (n : nat) :
  let pos := last_slash argv0 n in
  (pos <= n)%nat /\
  (forall i, (pos < i < n)%nat -> char_at_is "/" argv0 i = false) /\
  ((0 < pos)%nat -> (pos < n)%nat /\ char_at_is "/" argv0 pos = true).
Proof.
  induction n as [|n IH]; simpl.
  - repeat split; intros; lia.
  - destruct (char_at_is "/" argv0 n) eqn:Hn.
    + repeat split; intros; try lia. exact Hn.
    + destruct IH as (Hle & Hfree & Hhit). repeat split.
      * lia.
      * intros i Hi. destruct (decide (i = n)) as [->|Hne]; [exact Hn|].
        apply Hfree. lia.
      * apply Hhit in H. lia.
      * apply Hhit, H.
Qed.

Lemma last_slash_hit (argv0 : string) (n : nat) :
  (0 < last_slash argv0 n)%nat ->
  (last_slash argv0 n < n)%nat /\ char_at_is "/" argv0 (last_slash argv0 n) = true.
Proof.
  induction n as [|n IH]; simpl; [lia|].
  destruct (char_at_is "/" argv0 n) eqn:Hn.
  - intros _. split; [lia | exact Hn].
  - intros Hpos. destruct (IH Hpos) as [Hlt Hslash]. split; [lia | exact Hslash].
Qed.

Lemma last_slash_none (argv0 : string) (n : nat) :
  slash_free_from 1 argv0 -> last_slash argv0 n = O.
Proof.
  intros Hfree. induction n as [|n IH]; simpl; [reflexivity|].
  destruct n as [|n].
  - destruct (char_at_is "/" argv0 0); reflexivity.
  - rewrite Hfree by lia. exact IH.
Qed.

Lemma last_slash_dirname (dir base : string) (k : nat) :
  slash_free_from 0 base ->
  last_slash (dir +:+ "/" +:+ base) (String.length dir + 1 + k) = String.length dir.
Proof.
  intros Hfree. induction k as [|k IH].
  - replace (String.length dir + 1 + 0)%nat with (S (String.length dir)) by lia.
    simpl. unfold char_at_is.
    replace (String.length dir) with (String.length dir + 0)%nat at 1 by lia.
    rewrite string_get_append_r. reflexivity.
  - replace (String.length dir + 1 + S k)%nat
      with (S (String.length dir + 1 + k)) by lia.
    simpl. unfold char_at_is at 1.
    replace (String.length dir + 1 + k)%nat
      with (String.length dir + S k)%nat by lia.
    rewrite string_get_append_r. simpl.
    specialize (Hfree k ltac:(lia)). unfold char_at_is in Hfree.
    change ("" +:+ base) with base. rewrite Hfree.
    replace (String.length dir + S k)%nat
      with (String.length dir + 1 + k)%nat by lia.
    exact IH.
Qed.

Lemma nonempty_by_length (s : string) :
  (0 <? String.length s)%nat = negb (String.eqb s "").
Proof. destruct s; reflexivity. Qed.

Lemma is_dot_by_index (dir rest : string) :
  ((String.length dir =? 1)%nat && char_at_is "." (dir +:+ "/" +:+ rest) 0) =
  String.eqb dir ".".
Proof.
  destruct dir as [|c [|c' dir]]; simpl; try reflexivity.
  - unfold char_at_is. simpl. destruct (c =? ".")%char; reflexivity.
  - destruct (c =? ".")%char; reflexivity.
Qed.

Lemma SetAppDirectory_fallback READYDIR chdir argv0 here :
  READYDIR_unused READYDIR chdir here ->
  SetAppDirectory READYDIR chdir argv0 here =
    let pos := last_slash argv0 (strlen_unsigned argv0) in
    if (0 <? pos)%nat && negb ((pos =? 1)%nat && char_at_is "." argv0 0) then
      if (pos <? sizeof_appdir)%nat then
        (tried_READYDIR READYDIR ++ [wxSetWorkingDirectory_call (String.substring 0 pos argv0)],
         snd (wxSetWorkingDirectory chdir (String.substring 0 pos argv0) here))
      else (tried_READYDIR READYDIR, here)
    else (tried_READYDIR READYDIR, here).
Proof.
  intros Hun. unfold SetAppDirectory, tried_READYDIR, READYDIR_unused in *.
  destruct (char_at_is "/" READYDIR 0); [|reflexivity].
  unfold wxSetWorkingDirectory at 1. rewrite Hun by reflexivity. reflexivity.
Qed.

(** X12: for a program path [dir/base] ([base] free of ['/']) and READYDIR
    not entered, [SetAppDirectory] asks for the working directory [dir], and
    nothing else, unless [dir] is empty, is ["."] or has 2048 characters or
    more; in those cases it leaves the working directory alone. *)
Theorem SetAppDirectory_dirname READYDIR chdir dir base here :
  slash_free_from 0 base ->
  Z.of_nat (String.length (dir +:+ "/" +:+ base)) < 2 ^ 32 ->
  READYDIR_unused READYDIR chdir here ->
  SetAppDirectory READYDIR chdir (dir +:+ "/" +:+ base) here =
    if negb (String.eqb dir "") && negb (String.eqb dir ".") &&
       (String.length dir <? sizeof_appdir)%nat
    then (tried_READYDIR READYDIR ++ [wxSetWorkingDirectory_call dir],
          snd (wxSetWorkingDirectory chdir dir here))
    else (tried_READYDIR READYDIR, here).
Proof.
  intros Hfree Hlen Hun.
  rewrite SetAppDirectory_fallback by exact Hun. cbv zeta.
  rewrite strlen_unsigned_small by exact Hlen.
  assert (Hsplit : String.length (dir +:+ "/" +:+ base) =
                   (String.length dir + 1 + String.length base)%nat)
    by (rewrite !string_length_append; simpl; lia).
  rewrite Hsplit.
  rewrite last_slash_dirname by exact Hfree.
  rewrite nonempty_by_length, is_dot_by_index, substring_append_prefix.
  destruct (String.eqb dir ""), (String.eqb dir "."),
    (String.length dir <? sizeof_appdir)%nat; reflexivity.
Qed.

(** X13: a program path with no ['/'] after its first character (found
    through PATH, or lying in the root directory, as ["/ready"]) changes
    nothing when READYDIR is not entered. *)
Theorem SetAppDirectory_no_directory READYDIR chdir argv0 here :
  slash_free_from 1 argv0 ->
  READYDIR_unused READYDIR chdir here ->
  SetAppDirectory READYDIR chdir argv0 here = (tried_READYDIR READYDIR, here).
Proof.
  intros Hfree Hun.
  rewrite SetAppDirectory_fallback by exact Hun. cbv zeta.
  rewrite last_slash_none by exact Hfree. reflexivity.
Qed.

(** X14: whatever [argv0] is, a directory [SetAppDirectory] asks for is
    READYDIR or the part of [argv0] before one of its ['/'], not the first
    character, and with its terminator it fits [appdir]. *)
Theorem SetAppDirectory_fits READYDIR chdir argv0 here dir :
  wxSetWorkingDirectory_call dir ∈ (SetAppDirectory READYDIR chdir argv0 here).1 ->
  dir = READYDIR \/
  exists pos, dir = String.substring 0 pos argv0 /\
              (0 < pos < String.length argv0)%nat /\
              char_at_is "/" argv0 pos = true /\
              (String.length dir + 1 <= sizeof_appdir)%nat.
Proof.
  unfold SetAppDirectory.
  pose proof (last_slash_hit argv0 (strlen_unsigned argv0)) as Hhit.
  pose proof (strlen_unsigned_le argv0) as Hle.
  set (pos := last_slash argv0 (strlen_unsigned argv0)) in *.
  assert (Hargv :
    forall tried, (forall c, c ∈ tried -> c = wxSetWorkingDirectory_call READYDIR) ->
    wxSetWorkingDirectory_call dir ∈
      (if (0 <? pos)%nat && negb ((pos =? 1)%nat && char_at_is "." argv0 0) then
         if (pos <? sizeof_appdir)%nat then
           (tried ++ [wxSetWorkingDirectory_call (String.substring 0 pos argv0)],
            snd (wxSetWorkingDirectory chdir (String.substring 0 pos argv0) here))
         else (tried, here)
       else (tried, here)).1 ->
    dir = READYDIR \/
    exists pos, dir = String.substring 0 pos argv0 /\
                (0 < pos < String.length argv0)%nat /\
                char_at_is "/" argv0 pos = true /\
                (String.length dir + 1 <= sizeof_appdir)%nat).
  { intros tried Htried.
    destruct ((0 <? pos)%nat) eqn:Hpos; simpl;
      [|intros Hin; left; apply Htried in Hin; congruence].
    destruct (negb _); simpl;
      [|intros Hin; left; apply Htried in Hin; congruence].
    destruct ((pos <? sizeof_appdir)%nat) eqn:Hsize; simpl;
      [|intros Hin; left; apply Htried in Hin; congruence].
    intros Hin. apply elem_of_app in Hin as [Hin|Hin].
    - left. apply Htried in Hin. congruence.
    - apply list_elem_of_singleton in Hin. injection Hin as ->.
      right. exists pos. apply Nat.ltb_lt in Hpos, Hsize.
      destruct (Hhit Hpos) as [Hlt Hslash].
      pose proof (substring_length_le argv0 pos).
      repeat split; try lia. exact Hslash. }
  destruct (char_at_is "/" READYDIR 0).
  - destruct (wxSetWorkingDirectory chdir READYDIR here) as [[|] there].
    + simpl. intros Hin. apply list_elem_of_singleton in Hin. left. congruence.
    + apply Hargv. intros c Hc. apply list_elem_of_singleton in Hc. exact Hc.
    - apply (Hargv []). intros c Hc. inversion Hc.
Qed.


Lemma with_trailing_separator_ends (dir : string) :
  Last (with_trailing_separator dir) = Some "/"%char.
Proof.
  unfold with_trailing_separator.
  destruct (Last dir) as [c|] eqn:Hlast.
  - destruct (Ascii.eqb c "/") eqn:Hc.
    + apply Ascii.eqb_eq in Hc. congruence.
    + apply Last_append_char.
  - apply Last_append_char.
Qed.

Lemma with_trailing_separator_fixed (dir : string) :
  Last dir = Some "/"%char -> with_trailing_separator dir = dir.
Proof. intros H. unfold with_trailing_separator. rewrite H. reflexivity. Qed.

Lemma open_arguments_all_open IsAbsolute GetFullPath initdir arguments :
  List.filter is_OpenFile (open_arguments IsAbsolute GetFullPath initdir arguments) =
  open_arguments IsAbsolute GetFullPath initdir arguments.
Proof.
  unfold open_arguments.
  induction arguments as [|a l IH]; simpl; [reflexivity | rewrite IH; reflexivity].
Qed.

Lemma SetAppDirectory_opens_nothing READYDIR chdir argv0 here :
  List.filter is_OpenFile (SetAppDirectory READYDIR chdir argv0 here).1 = [].
Proof.
  unfold SetAppDirectory.
  destruct (char_at_is "/" READYDIR 0);
    [destruct (wxSetWorkingDirectory chdir READYDIR here) as [[|] ?]|];
    try reflexivity.
  all: destruct (_ && _); [destruct (_ <? _)%nat|]; reflexivity.
Qed.

(** X15: when [wxApp::OnInit] succeeds, the files opened are the arguments
    after [argv[0]], in their order, one [OpenFile] each, a relative one
    prefixed with the working directory the program was started in (with a
    separator): READYDIR, [argv[0]] and the change of directory play no
    part. *)
Theorem OnInit_opens_arguments READYDIR chdir maximize IsAbsolute GetFullPath
    argv0 arguments p :
  cwd p <> "" ->
  List.filter is_OpenFile
    (OnInit READYDIR chdir true maximize IsAbsolute GetFullPath argv0 arguments p).1.2 =
  map (fun argument =>
         currframe_OpenFile (GetFullPath
           (if IsAbsolute argument then argument
            else with_trailing_separator (cwd p) +:+ argument)))
      arguments.
Proof.
  intros _. unfold OnInit. simpl.
  rewrite List.filter_app, SetAppDirectory_opens_nothing. simpl.
  destruct maximize; simpl; apply open_arguments_all_open.
Qed.

(** X16: after a start that goes through, in a working directory that is
    known, the working directory is as [SetAppDirectory] left it and
    [readydir] is that directory: unchanged when it ends in ['/'], with one
    ['/'] appended when it does not.  So [readydir] ends in ['/'] and needs
    no further separator. *)
Theorem OnInit_readydir READYDIR chdir maximize IsAbsolute GetFullPath
    argv0 arguments p :
  let p' := (OnInit READYDIR chdir true maximize IsAbsolute GetFullPath
               argv0 arguments p).2 in
  cwd p' <> "" ->
  cwd p' = (SetAppDirectory READYDIR chdir argv0 (cwd p)).2 /\
  (Last (cwd p') = Some "/"%char -> readydir p' = cwd p') /\
  (Last (cwd p') <> Some "/"%char -> readydir p' = cwd p' +:+ "/") /\
  Last (readydir p') = Some "/"%char /\
  with_trailing_separator (readydir p') = readydir p'.
Proof.
  unfold OnInit. simpl. intros _.
  split; [reflexivity|].
  split; [intros Hlast; apply with_trailing_separator_fixed, Hlast|].
  split.
  - intros Hlast. unfold with_trailing_separator.
    destruct (Last _) as [c|]; [|reflexivity].
    destruct (Ascii.eqb c "/") eqn:Hc; [|reflexivity].
    apply Ascii.eqb_eq in Hc. congruence.
  - split; [apply with_trailing_separator_ends|].
    apply with_trailing_separator_fixed, with_trailing_separator_ends.
Qed.

(** ** The further theorems at concrete inputs *)

Lemma other_rule_type_rejected_witness :
  let file := image_file image_32_32_1 "Inbuilt" "Gray-Scott" [] false in
  result (CreateFromFile quiet "pattern.vti" file true 0 0 german) =
    Throw (runtime_error "Unsupported rule type: Inbuilt").
Proof.
  intros file.
  assert (Hd : data_present file)
    by (exists (Build_vtkDataArray VTK_FLOAT 3), []; reflexivity).
  apply (other_rule_type_rejected quiet "pattern.vti" file true 0 0 german Hd);
    vm_compute; discriminate.
Defined.

Lemma opencl_rule_binding_witness :
  let file := mesh_file mesh_of_20_cells "kernel" "mine" [] false in
  exists sys,
    result (CreateFromFile quiet "pattern.vtu" file true 1 2 german) = Return sys /\
    class sys = FullKernelOpenCLMeshRD 1 2 VTK_FLOAT.
Proof.
  intros file.
  destruct (opencl_rule_binding quiet "pattern.vtu" file 1 2 german
              (Build_vtkDataArray VTK_FLOAT 1) [Build_vtkDataArray VTK_FLOAT 1]
              eq_refl (or_intror eq_refl)) as (_ & Hclass & Hreturns).
  destruct (Hreturns quiet_reliable) as [sys Hsys].
  exists sys. split; [exact Hsys|].
  exact (proj1 (Hclass sys Hsys)).
Defined.

Lemma returned_model_was_checked_witness :
  data_present (image_file image_32_32_1 "inbuilt" "Gray-Scott" [] false).
Proof.
  exact (proj1 (returned_model_was_checked quiet "pattern.vti"
                  (image_file image_32_32_1 "inbuilt" "Gray-Scott" [] false)
                  false 0 0 german _ eq_refl)).
Defined.

Lemma inbuilt_ignores_opencl_witness :
  let file := image_file image_32_32_1 "inbuilt" "Gray-Scott" [] false in
  CreateFromFile quiet "pattern.vti" file false 0 0 german =
  CreateFromFile quiet "pattern.vti" file true 1 2 german.
Proof.
  intros file.
  apply (inbuilt_ignores_opencl quiet "pattern.vti" file german false 0 0 true 1 2).
  reflexivity.
Defined.

Lemma factory_failure_before_construction_witness :
  let file := mesh_file mesh_of_20_cells "formula" "mine" [] false in
  let r := CreateFromFile quiet "pattern.vtu" file false 0 0 german in
  (Call.InitializeFromXML ∉ trace r) /\
  warn_to_update (final r) = warn_to_update german.
Proof.
  intros file r.
  destruct (factory_failure_before_construction quiet "pattern.vtu" file false 0 0 german
              (runtime_error (GetOpenCLInstallationHints quiet)) eq_refl
              (compute_unavailable quiet)) as (_ & Hinit & Hwarn).
  split; [exact Hinit | exact Hwarn].
Defined.

Lemma successful_load_calls_witness :
  let file := mesh_file mesh_of_20_cells "inbuilt" "Gray-Scott" [some_render_settings] true in
  trace (CreateFromFile quiet "pattern.vtu" file false 0 0 german) =
    [Call.setlocale "C"; Call.ReadOutputType "pattern.vtu";
     Call.CreateFromUnstructuredGridFile; Call.UnstructuredGridReaderUpdate "pattern.vtu";
     Call.make_unique GrayScottMeshRD;
     Call.InitializeFromXML; Call.CopyFromMesh; Call.OverwriteFromXML;
     Call.GenerateInitialPattern;
     Call.setlocale "C"; Call.SetFilename "pattern.vtu"; Call.SetModified false].
Proof.
  intros file.
  exact (successful_load_calls quiet "pattern.vtu" file false 0 0 german _ eq_refl).
Defined.

Lemma overlay_position_witness :
  (Call.InitializeFromXML ∈
     [Call.setlocale "C"; Call.ReadOutputType "pattern.vti";
      Call.CreateFromImageDataFile; Call.ImageReaderUpdate "pattern.vti";
      Call.make_unique GrayScottImageRD; Call.InitializeFromXML]) /\
  (Call.OverwriteFromXML ∉
     [Call.SetDimensions 32 32 1; Call.SetNumberOfChemicals 3;
      Call.CopyFromImage; Call.setlocale "C";
      Call.SetFilename "pattern.vti"; Call.SetModified false]).
Proof.
  destruct (overlay_position quiet "pattern.vti"
              (image_file image_32_32_1 "inbuilt" "Gray-Scott" [some_render_settings] false)
              false 0 0 german
              [Call.setlocale "C"; Call.ReadOutputType "pattern.vti";
               Call.CreateFromImageDataFile; Call.ImageReaderUpdate "pattern.vti";
               Call.make_unique GrayScottImageRD; Call.InitializeFromXML]
              [Call.SetDimensions 32 32 1; Call.SetNumberOfChemicals 3;
               Call.CopyFromImage; Call.setlocale "C";
               Call.SetFilename "pattern.vti"; Call.SetModified false]
              eq_refl) as (Hinit & _ & Hafter & _).
  split; [exact Hinit | exact Hafter].
Defined.

Lemma early_method_failure_keeps_render_settings_witness :
  let file := mesh_file mesh_of_20_cells "inbuilt" "Gray-Scott" [some_render_settings] false in
  render_settings (final (CreateFromFile fussy "pattern.vtu" file false 0 0 german)) =
  render_settings german.
Proof.
  intros file.
  apply (early_method_failure_keeps_render_settings fussy "pattern.vtu" file false 0 0
           german "CopyFromMesh" "CopyFromMesh: no cells").
  - reflexivity.
  - right. right. reflexivity.
Defined.

Lemma hydration_of_fresh_object_witness :
  let file := image_file image_32_32_1 "inbuilt" "Gray-Scott" [] false in
  exists fresh hydrated,
    construct quiet GrayScottImageRD = Return fresh /\
    InitializeFromXML quiet GrayScottImageRD (GetRDElement file) false fresh =
      Return (hydrated, false).
Proof.
  intros file.
  exact (hydration_of_fresh_object quiet "pattern.vti" file false 0 0 german _ eq_refl).
Defined.

Lemma last_slash_postcondition_witness :
  (last_slash "../ready" 8 < 8)%nat /\
  char_at_is "/" "../ready" (last_slash "../ready" 8) = true.
Proof.
  apply (last_slash_postcondition "../ready" 8).
  vm_compute. lia.
Defined.

Lemma ready_slash_free : slash_free_from 0 "ready".
Proof.
  intros i _. do 5 (destruct i as [|i]; [reflexivity|]). reflexivity.
Qed.

Lemma root_ready_slash_free : slash_free_from 1 "/ready".
Proof.
  intros i Hi. destruct i as [|i]; [lia|].
  do 5 (destruct i as [|i]; [reflexivity|]). reflexivity.
Qed.

Lemma SetAppDirectory_dirname_witness :
  SetAppDirectory "READYDIR" some_directories "../ready" "/home/user/Patterns" =
    ([wxSetWorkingDirectory_call ".."], "/home/user").
Proof.
  apply (SetAppDirectory_dirname "READYDIR" some_directories ".." "ready"
           "/home/user/Patterns").
  - exact ready_slash_free.
  - vm_compute. reflexivity.
  - intros H. vm_compute in H. discriminate H.
Defined.

Lemma SetAppDirectory_no_directory_witness :
  SetAppDirectory "READYDIR" some_directories "/ready" "/home/user/Patterns" =
    ([], "/home/user/Patterns").
Proof.
  apply (SetAppDirectory_no_directory "READYDIR" some_directories "/ready"
           "/home/user/Patterns").
  - exact root_ready_slash_free.
  - intros H. vm_compute in H. discriminate H.
Defined.

Lemma SetAppDirectory_fits_witness :
  "/opt/ready" = "/usr/share/ready" \/
  exists pos, "/opt/ready" = String.substring 0 pos "/opt/ready/ready" /\
              (0 < pos < String.length "/opt/ready/ready")%nat /\
              char_at_is "/" "/opt/ready/ready" pos = true /\
              (String.length "/opt/ready" + 1 <= sizeof_appdir)%nat.
Proof.
  apply (SetAppDirectory_fits "/usr/share/ready" some_directories "/opt/ready/ready"
           "/home/user/Patterns" "/opt/ready").
  vm_compute. apply list_elem_of_further, list_elem_of_here.
Defined.

Lemma OnInit_opens_arguments_witness :
  List.filter is_OpenFile
    (OnInit "READYDIR" some_directories true true unix_absolute id
       "../ready" ["foo.vti"; "/tmp/mesh.vtu"] started_in_patterns).1.2 =
  [currframe_OpenFile "/home/user/Patterns/foo.vti"; currframe_OpenFile "/tmp/mesh.vtu"].
Proof.
  apply (OnInit_opens_arguments "READYDIR" some_directories true unix_absolute id
           "../ready" ["foo.vti"; "/tmp/mesh.vtu"] started_in_patterns).
  vm_compute. discriminate.
Defined.

Lemma OnInit_readydir_witness :
  readydir (OnInit "READYDIR" root_above true false unix_absolute id
              "../ready" ["foo.vti"] {| cwd := "/Patterns"; readydir := "" |}).2 = "/" /\
  readydir (OnInit "READYDIR" some_directories true false unix_absolute id
              "../ready" ["foo.vti"] started_in_patterns).2 = "/home/user/".
Proof.
  split.
  - destruct (OnInit_readydir "READYDIR" root_above false unix_absolute id
                "../ready" ["foo.vti"] {| cwd := "/Patterns"; readydir := "" |})
      as (_ & Hkept & _).
    + vm_compute. discriminate.
    + apply Hkept. reflexivity.
  - destruct (OnInit_readydir "READYDIR" some_directories false unix_absolute id
                "../ready" ["foo.vti"] started_in_patterns)
      as (_ & _ & Hadded & _).
    + vm_compute. discriminate.
    + apply Hadded. vm_compute. discriminate.
Defined.
